(** * api.py of langchain-ChatGLM: knowledge-base lifecycle and chat sessions

    A shallow embedding of the request handlers of [api.py]
    ([single_upload_file], [upload_file], [list_docs], [delete_docs], [chat],
    [stream_chat], [feishu_event], [feishu_event_async]) and the properties
    of the knowledge-base lifecycle manager and of the session orchestrator.

    Modelling conventions.
    - A Python [str] is a [string], one character per code point where
      lengths or slices are taken; [bytes] is a [list byte]; [int] is [Z]
      ([nat] for the turn counter, which starts at 1 and only grows).
    - The upload tree is keyed by knowledge-base id and document name, both
      taken to be single path components: [UPLOAD_ROOT_PATH/<id>] holds
      regular files only, and [UPLOAD_ROOT_PATH] holds directories only.  An
      absent [UPLOAD_ROOT_PATH] and an empty one list alike.  Index locations
      are a set of existing paths, disjoint from the upload tree.
    - A handler is a computation over a [world] (file system, log of calls
      into the engine, pending background tasks, posted HTTP requests)
      returning a value or raising; effects done before a raise persist.
    - [LocalDocQA] (chains/local_doc_qa.py) and the constants of
      configs/model_config.py are not part of api.py: the engine is an
      interface whose calls are logged and return, the constants are
      parameters.  [await] on an engine call is the call itself.
    - A websocket session is the trace of what happens on the connection,
      given the questions the client sends before it goes away; the client
      goes away while the server waits for a question. *)

From stdpp Require Import gmap strings list fin_maps pretty.
From Stdlib Require Import Strings.Byte Strings.Ascii.

Open Scope string_scope.
Open Scope list_scope.
Set Warnings "-register-all".

(** ** Python values and exceptions *)

Inductive exn :=
| ValueError (msg : string)
| TypeError (msg : string)
| KeyError (key : string)
| UnboundLocalError (name : string)
| FileNotFoundError (path : string)
| JSONDecodeError
| ConnectionError
| WebSocketDisconnect.

Inductive outcome (A : Type) :=
| Return (a : A)
| Raise (e : exn).
Arguments Return {A} a.
Arguments Raise {A} e.

(** The values found in the ad-hoc dicts [{"code": 1, "msg": ...}]. *)
Inductive value :=
| VInt (n : Z)
| VStr (s : string)
| VList (l : list string).

(** [class BaseResponse(BaseModel)]: code = 200, msg = "success" by default. *)
Record BaseResponse := { code : Z; msg : string }.

Definition BaseResponse_default : BaseResponse :=
  {| code := 200; msg := "success" |}.

(** [class ListDocsResponse(BaseResponse)] adds [data]. *)
Record ListDocsResponse := { base : BaseResponse; data : list string }.

(** [class ChatMessage(BaseModel)]. *)
Record ChatMessage := {
  question : string;
  response : string;
  history : list (list string);
  source_documents : list string
}.

(** What a handler of the document store hands back: a plain dict, or one
    of the pydantic models. *)
Inductive reply :=
| Dict (d : gmap string value)
| Base (r : BaseResponse)
| ListDocs (r : ListDocsResponse).

(** [r[key]]: a dict is subscriptable; a pydantic model defines no
    [__getitem__], so the subscript raises [TypeError]. *)
Definition getitem (r : reply) (key : string) : outcome value :=
  match r with
  | Dict d =>
      match d !! key with
      | Some v => Return v
      | None => Raise (KeyError key)
      end
  | Base _ => Raise (TypeError "'BaseResponse' object is not subscriptable")
  | ListDocs _ =>
      Raise (TypeError "'ListDocsResponse' object is not subscriptable")
  end.

(** [v != 0]. *)
Definition ne_zero (v : value) : bool :=
  match v with
  | VInt n => negb (n =? 0)%Z
  | _ => true
  end.

(** [len(v)]. *)
Definition len (v : value) : outcome nat :=
  match v with
  | VInt _ => Raise (TypeError "object of type 'int' has no len()")
  | VStr s => Return (String.length s)
  | VList l => Return (length l)
  end.

(** Truth value of a [str] / [Optional[str]]: [None] and [""] are false. *)
Definition truthy (s : option string) : option string :=
  match s with
  | Some "" => None
  | other => other
  end.

(** ** Paths *)

Definition SLASH : ascii := "/"%char.
Definition NL : string := String "010"%char "".

Fixpoint ends_with_slash (s : string) : bool :=
  match s with
  | "" => false
  | String c "" => bool_decide (c = SLASH)
  | String _ rest => ends_with_slash rest
  end.

Definition starts_with_slash (s : string) : bool :=
  match s with
  | String c _ => bool_decide (c = SLASH)
  | "" => false
  end.

(** [os.path.join(a, b)] (posixpath). *)
Definition os_path_join (a b : string) : string :=
  if starts_with_slash b then b
  else if bool_decide (a = "") || ends_with_slash a then a +:+ b
  else a +:+ "/" +:+ b.

(** [os.path.split(p)[-1]]: what follows the last slash. *)
Fixpoint basename_aux (acc p : string) : string :=
  match p with
  | "" => acc
  | String c rest =>
      if bool_decide (c = SLASH) then basename_aux "" rest
      else basename_aux (acc +:+ String c "") rest
  end.

Definition os_path_basename (p : string) : string := basename_aux "" p.

(** [sep.join(parts)]. *)
Fixpoint str_join (sep : string) (parts : list string) : string :=
  match parts with
  | [] => ""
  | [p] => p
  | p :: rest => p +:+ sep +:+ str_join sep rest
  end.

(** ** The world the handlers run in *)

Record filesystem := {
  uploads : gmap string (gmap string (list byte));
  index_dirs : gset string
}.

(** The first argument of [init_knowledge_vector_store] is a list of file
    paths in the upload handlers and a folder path in [delete_docs]. *)
Inductive init_source :=
| FileList (paths : list string)
| FolderPath (path : string).

Inductive engine_call :=
| CallInit (filepath : init_source) (vs_path : string)
| CallAddFiles (vs_path : string) (files : list string)
| CallAnswer (query vs_path : string) (chat_history : list (list string)).

(** A retrieved excerpt: [doc.page_content], [doc.metadata['source']],
    [doc.metadata['score']]. *)
Record Document := {
  page_content : string;
  metadata_source : string;
  metadata_score : Z
}.

(** One element yielded by the engine: [resp["result"]] and, when the key
    is present, [resp["source_documents"]]. *)
Record Resp := {
  result : string;
  resp_source_documents : option (list Document)
}.

(** The operations of [LocalDocQA] the handlers call.  The index operations
    see the file system and say which index locations exist afterwards. *)
Record LocalDocQA := {
  init_knowledge_vector_store :
    init_source → string → filesystem →
    (option string * list string) * gset string;
  add_files_to_knowledge_vector_store :
    string → list string → filesystem → list string * gset string;
  get_knowledge_based_answer :
    string → string → list (list string) →
    list (Resp * list (list string))
}.

(** The webhook envelope carries arbitrary JSON. *)
Inductive json :=
| JNull
| JBool (b : bool)
| JNum (n : Z)
| JStr (s : string)
| JList (l : list json)
| JDict (d : list (string * json)).

(** [class FeiShu(BaseModel)]. *)
Record FeiShu := {
  challenge : option string;
  type : option string;
  token : option string;
  header : option (list (string * json));
  event : option (list (string * json))
}.

(** A coroutine handed to [asyncio.create_task], not yet run. *)
Inductive task :=
| FeishuEventAsync (fei_shu : FeiShu).

(** [requests.post(url, data=..., headers=...)]. *)
Record http_request := {
  url : string;
  body : list (string * string);
  headers : list (string * string)
}.

Record world := {
  fs : filesystem;
  engine_log : list engine_call;
  pending : list task;
  posted : list http_request
}.

(** ** Computations: state over [world], with exceptions *)

Definition M (A : Type) : Type := world → outcome A * world.

Definition ret {A} (a : A) : M A := fun w => (Return a, w).

Definition raise {A} (e : exn) : M A := fun w => (Raise e, w).

Definition bind {A B} (m : M A) (k : A → M B) : M B :=
  fun w =>
    match m w with
    | (Return a, w') => k a w'
    | (Raise e, w') => (Raise e, w')
    end.

Definition lift {A} (o : outcome A) : M A := fun w => (o, w).

Definition gets {A} (f : world → A) : M A := fun w => (Return (f w), w).

Definition modify (f : world → world) : M unit := fun w => (Return tt, f w).

Declare Scope py_scope.
Delimit Scope py_scope with py.
Notation "x <~ m ;; k" := (bind m (fun x => k))
  (at level 100, m at next level, right associativity) : py_scope.
Notation "m ;;; k" := (bind m (fun _ => k))
  (at level 100, right associativity) : py_scope.
Open Scope py_scope.

Definition set_fs (f : filesystem → filesystem) (w : world) : world :=
  {| fs := f (fs w); engine_log := engine_log w;
     pending := pending w; posted := posted w |}.

Definition set_uploads
    (f : gmap string (gmap string (list byte)) →
         gmap string (gmap string (list byte)))
    (s : filesystem) : filesystem :=
  {| uploads := f (uploads s); index_dirs := index_dirs s |}.

Definition log_call (c : engine_call) (w : world) : world :=
  {| fs := fs w; engine_log := engine_log w ++ [c];
     pending := pending w; posted := posted w |}.

(** *** File-system primitives *)

(** [os.path.exists] of a knowledge-base folder. *)
Definition folder_exists (kb : string) : M bool :=
  gets (fun w => bool_decide (is_Some (uploads (fs w) !! kb))).

(** The file at [UPLOAD_ROOT_PATH/kb/name], if any. *)
Definition stored_file (s : filesystem) (kb name : string)
  : option (list byte) :=
  uploads s !! kb ≫= (.!! name).

(** [os.path.exists(p) and os.path.getsize(p) == n] for a document path. *)
Definition same_size_stored (s : filesystem) (kb name : string) (n : nat)
  : bool :=
  match stored_file s kb name with
  | Some old => Nat.eqb (length old) n
  | None => false
  end.

Definition exists_with_size (kb name : string) (n : nat) : M bool :=
  gets (fun w => same_size_stored (fs w) kb name n).

Definition file_exists (kb name : string) : M bool :=
  gets (fun w => bool_decide (is_Some (stored_file (fs w) kb name))).

(** [os.makedirs(folder)] for a folder that does not exist. *)
Definition os_makedirs (kb : string) : M unit :=
  modify (set_fs (set_uploads (fun u => <[kb := ∅]> u))).

(** [with open(p, mode) as f: f.write(data)].  Mode "wb" truncates, mode
    "ab+" appends; both create the file and need the folder to exist. *)
Inductive open_mode := WB | ABplus.

Definition write_file (mode : open_mode) (path kb name : string)
    (data : list byte) : M unit :=
  fun w =>
    match uploads (fs w) !! kb with
    | None => (Raise (FileNotFoundError path), w)
    | Some folder =>
        let old := match mode with
                   | WB => []
                   | ABplus => default [] (folder !! name)
                   end in
        (Return tt,
         set_fs
           (set_uploads (fun u => <[kb := <[name := old ++ data]> folder]> u))
           w)
    end.

(** [os.remove(p)] for a document that exists. *)
Definition os_remove (kb name : string) : M unit :=
  modify (set_fs (set_uploads (fun u => alter (delete name) kb u))).

(** [shutil.rmtree(folder)] for a folder that exists (with or without
    [ignore_errors]). *)
Definition shutil_rmtree (kb : string) : M unit :=
  modify (set_fs (set_uploads (fun u => delete kb u))).

(** [os.path.exists] of an index location. *)
Definition index_exists (vs_path : string) : M bool :=
  gets (fun w => bool_decide (vs_path ∈ index_dirs (fs w))).

(** [os.listdir]: the names in enumeration order. *)
Definition os_listdir {V} (dir : gmap string V) : list string :=
  (map_to_list dir).*1.

(** ** The handlers *)

Section Api.

(** [UPLOAD_ROOT_PATH], [VS_ROOT_PATH] (configs/model_config.py) and the
    global [local_doc_qa] set up by [main]. *)
Variables UPLOAD_ROOT_PATH VS_ROOT_PATH : string.
Variable local_doc_qa : LocalDocQA.

(** [json.loads], [str()] of a JSON value and the network behind
    [requests.post] (the text of the response, or a raise). *)
Variable json_loads : string → option json.
Variable py_str : json → string.
Variable requests_post : http_request → outcome string.

Definition get_folder_path (local_doc_id : string) : string :=
  os_path_join UPLOAD_ROOT_PATH local_doc_id.

Definition get_vs_path (local_doc_id : string) : string :=
  os_path_join VS_ROOT_PATH local_doc_id.

Definition get_file_path (local_doc_id doc_name : string) : string :=
  os_path_join (os_path_join UPLOAD_ROOT_PATH local_doc_id) doc_name.

(** *** Calls into the engine *)

Definition set_index_dirs (dirs : gset string) (s : filesystem)
  : filesystem :=
  {| uploads := uploads s; index_dirs := dirs |}.

Definition call_init (filepath : init_source) (vs_path : string)
  : M (option string * list string) :=
  fun w =>
    let '(r, dirs) :=
      init_knowledge_vector_store local_doc_qa filepath vs_path (fs w) in
    (Return r,
     log_call (CallInit filepath vs_path) (set_fs (set_index_dirs dirs) w)).

Definition call_add_files (vs_path : string) (files : list string)
  : M (list string) :=
  fun w =>
    let '(r, dirs) :=
      add_files_to_knowledge_vector_store local_doc_qa vs_path files (fs w) in
    (Return r,
     log_call (CallAddFiles vs_path files) (set_fs (set_index_dirs dirs) w)).

Definition call_answer (query vs_path : string)
    (chat_history : list (list string))
  : M (list (Resp * list (list string))) :=
  fun w =>
    (Return
       (get_knowledge_based_answer local_doc_qa query vs_path chat_history),
     log_call (CallAnswer query vs_path chat_history) w).

(** *** Document store *)

Definition not_found_dict (what : string) : reply :=
  Dict {[ "code" := VInt 1; "msg" := VStr (what +:+ " not found") ]}.

Definition single_upload_file (file_filename : string)
    (file_bytes : list byte) (knowledge_base_id : string) : M BaseResponse :=
  let saved_path := get_folder_path knowledge_base_id in
  found <~ folder_exists knowledge_base_id ;;
  (if negb found then os_makedirs knowledge_base_id else ret tt) ;;;
  let file_content := file_bytes in
  let file_path := os_path_join saved_path file_filename in
  same <~ exists_with_size knowledge_base_id file_filename
            (length file_content) ;;
  if same then
    ret {| code := 200; msg := "文件 " +:+ file_filename +:+ " 已存在。" |}
  else
    write_file WB file_path knowledge_base_id file_filename file_content ;;;
    let vs_path := get_vs_path knowledge_base_id in
    indexed <~ index_exists vs_path ;;
    if indexed then
      added_files <~ call_add_files vs_path [file_path] ;;
      if Nat.ltb 0 (length added_files) then
        ret {| code := 200;
               msg := "文件 " +:+ file_filename
                      +:+ " 已上传并已加载知识库，请开始提问。" |}
      else ret {| code := 500; msg := "文件上传失败，请重新上传" |}
    else
      r <~ call_init (FileList [file_path]) vs_path ;;
      let loaded_files := r.2 in
      if Nat.ltb 0 (length loaded_files) then
        ret {| code := 200;
               msg := "文件 " +:+ file_filename
                      +:+ " 已上传至新的知识库，并已加载知识库，请开始提问。" |}
      else ret {| code := 500; msg := "文件上传失败，请重新上传" |}.

(** The [for file in files] loop of [upload_file]; [filelist] accumulates. *)
Fixpoint upload_file_loop (knowledge_base_id : string)
    (files : list (string * list byte)) (filelist : list string)
  : M (list string) :=
  match files with
  | [] => ret filelist
  | (file_filename, file_content) :: rest =>
      let file_path :=
        os_path_join (get_folder_path knowledge_base_id) file_filename in
      same <~ exists_with_size knowledge_base_id file_filename
                (length file_content) ;;
      if same then upload_file_loop knowledge_base_id rest filelist
      else
        write_file ABplus file_path knowledge_base_id file_filename
          file_content ;;;
        upload_file_loop knowledge_base_id rest (filelist ++ [file_path])
  end.

Definition upload_file (files : list (string * list byte))
    (knowledge_base_id : string) : M BaseResponse :=
  found <~ folder_exists knowledge_base_id ;;
  (if negb found then os_makedirs knowledge_base_id else ret tt) ;;;
  filelist <~ upload_file_loop knowledge_base_id files [] ;;
  let failed :=
    {| code := 500; msg := "文件未成功加载，请重新上传文件" |} in
  match filelist with
  | [] => ret failed
  | _ =>
      r <~ call_init (FileList filelist) (get_vs_path knowledge_base_id) ;;
      let loaded_files := r.2 in
      if negb (Nat.eqb (length loaded_files) 0) then
        ret {| code := 200;
               msg := "已上传 "
                      +:+ str_join "、" (os_path_basename <$> loaded_files)
                      +:+ " 至知识库，并已加载知识库，请开始提问" |}
      else ret failed
  end.

(** What a write of [bytes] under [kb]/[name] leaves in the upload tree,
    the folder being created when missing. *)
Definition written (kb name : string) (bytes : list byte) (s : filesystem)
  : filesystem :=
  set_uploads
    (fun u => <[kb := <[name := bytes]> (default ∅ (u !! kb))]> u) s.

(** The files the engine reports back when [single_upload_file] hands it
    [kb]/[name] on file system [s]: [added_files] or [loaded_files]. *)
Definition incorporated (kb name : string) (s : filesystem) : list string :=
  let file_path := os_path_join (get_folder_path kb) name in
  let vs_path := get_vs_path kb in
  if bool_decide (vs_path ∈ index_dirs s) then
    (add_files_to_knowledge_vector_store local_doc_qa vs_path [file_path] s).1
  else
    (init_knowledge_vector_store local_doc_qa (FileList [file_path]) vs_path
       s).1.2.

Definition list_docs (knowledge_base_id : option string) : M reply :=
  match truthy knowledge_base_id with
  | Some knowledge_base_id =>
      gets (fun w =>
        match uploads (fs w) !! knowledge_base_id with
        | None => not_found_dict ("Knowledge base " +:+ knowledge_base_id)
        | Some local_doc_folder =>
            ListDocs {| base := BaseResponse_default;
                        data := os_listdir local_doc_folder |}
        end)
  | None =>
      gets (fun w =>
        ListDocs {| base := BaseResponse_default;
                    data := os_listdir (uploads (fs w)) |})
  end.

Definition delete_docs (knowledge_base_id : string)
    (doc_name : option string) : M reply :=
  found <~ folder_exists knowledge_base_id ;;
  if negb found then
    ret (not_found_dict ("Knowledge base " +:+ knowledge_base_id))
  else
    match truthy doc_name with
    | Some doc_name =>
        there <~ file_exists knowledge_base_id doc_name ;;
        if there then
          os_remove knowledge_base_id doc_name ;;;
          remain_docs <~ list_docs (Some knowledge_base_id) ;;
          c <~ lift (getitem remain_docs "code") ;;
          (if ne_zero c then shutil_rmtree knowledge_base_id
           else
             d <~ lift (getitem remain_docs "data") ;;
             n <~ lift (len d) ;;
             if Nat.eqb n 0 then shutil_rmtree knowledge_base_id
             else
               call_init (FolderPath (get_folder_path knowledge_base_id))
                 (get_vs_path knowledge_base_id) ;;;
               ret tt) ;;;
          ret (Base BaseResponse_default)
        else ret (not_found_dict ("document " +:+ doc_name))
    | None =>
        shutil_rmtree knowledge_base_id ;;;
        ret (Base BaseResponse_default)
    end.

(** *** Single-shot chat *)

(** The [source_documents] comprehension shared by [chat] and
    [stream_chat]. *)
Definition render_sources (docs : list Document) : list string :=
  imap (fun inum doc =>
          "出处 [" +:+ pretty (inum + 1) +:+ "] "
          +:+ os_path_basename (metadata_source doc) +:+ "：" +:+ NL +:+ NL
          +:+ page_content doc +:+ NL +:+ NL
          +:+ "相关度：" +:+ pretty (metadata_score doc) +:+ NL +:+ NL)
       docs.

(** [resp["source_documents"]]. *)
Definition resp_getitem_source_documents (resp : Resp)
  : outcome (list Document) :=
  match resp_source_documents resp with
  | Some docs => Return docs
  | None => Raise (KeyError "source_documents")
  end.

(** The location [chat] and [feishu_event_async] assign to [vs_path]. *)
Definition FIXED_VS_PATH : string :=
  "/root/github/langchain-ChatGLM/vector_store/test_case_v5".

Definition chat (knowledge_base_id question : string)
    (history : list (list string)) : M ChatMessage :=
  let vs_path := FIXED_VS_PATH in
  found <~ index_exists vs_path ;;
  if negb found then
    raise (ValueError ("Knowledge base " +:+ knowledge_base_id +:+ " not found"))
  else
    partials <~ call_answer question vs_path history ;;
    match last partials with
    | None => raise (UnboundLocalError "resp")
    | Some (resp, history) =>
        docs <~ lift (resp_getitem_source_documents resp) ;;
        ret {| question := question;
               response := result resp;
               history := history;
               source_documents := render_sources docs |}
    end.

(** *** Streaming chat over a websocket *)

Inductive message :=
| ErrorFrame (error : string)
| StartMarker (question : string) (turn : nat)
| AnswerText (text : string)
| EndMarker (question : string) (turn : nat) (sources_documents : list string).

(** What happens on the connection, in program order.  [Engine] marks the
    call that starts the answer generator; [Raised] ends the coroutine. *)
Inductive ws_event :=
| Accept
| Receive (text : string)
| Send (m : message)
| Engine (c : engine_call)
| Close
| Raised (e : exn).

(** [s[n:]]. *)
Fixpoint str_from (n : nat) (s : string) : string :=
  match n, s with
  | 0, _ => s
  | S n', String _ rest => str_from n' rest
  | S _, "" => ""
  end.

(** The inner [for resp, history in ...] loop: one [send_text] per partial,
    of what follows the first [last_print_len] characters. *)
Fixpoint send_partials (last_print_len : nat)
    (partials : list (Resp * list (list string))) : list ws_event :=
  match partials with
  | [] => []
  | (resp, _) :: rest =>
      Send (AnswerText (str_from last_print_len (result resp)))
      :: send_partials (String.length (result resp)) rest
  end.

(** The locals of [stream_chat] that live across turns; [resp] is unbound
    until the generator has yielded once. *)
Record session := {
  s_history : list (list string);
  s_turn : nat;
  s_resp : option Resp
}.

(** One pass through the body of [while True] once a question is in: the
    events, and the locals for the next pass unless the pass raised. *)
Definition stream_turn (vs_path question : string) (st : session)
  : list ws_event * option session :=
  let partials :=
    get_knowledge_based_answer local_doc_qa question vs_path (s_history st) in
  let resp := from_option (Some ∘ fst) (s_resp st) (last partials) in
  let history := from_option snd (s_history st) (last partials) in
  let opening :=
    [Receive question; Send (StartMarker question (s_turn st));
     Engine (CallAnswer question vs_path (s_history st))]
    ++ send_partials 0 partials in
  match resp with
  | None => (opening ++ [Raised (UnboundLocalError "resp")], None)
  | Some r =>
      match resp_source_documents r with
      | None => (opening ++ [Raised (KeyError "source_documents")], None)
      | Some docs =>
          (opening
           ++ [Send (EndMarker question (s_turn st) (render_sources docs))],
           Some {| s_history := history;
                   s_turn := s_turn st + 1;
                   s_resp := Some r |})
      end
  end.

(** [while True]: [inbound] is what the client sends before it goes away,
    at which point [receive_text] raises. *)
Fixpoint stream_loop (vs_path : string) (inbound : list string)
    (st : session) : list ws_event :=
  match inbound with
  | [] => [Raised WebSocketDisconnect]
  | question :: inbound' =>
      let '(events, next) := stream_turn vs_path question st in
      events ++
      match next with
      | Some st' => stream_loop vs_path inbound' st'
      | None => []
      end
  end.

Definition stream_chat (inbound : list string) (knowledge_base_id : string)
    (s : filesystem) : list ws_event :=
  let vs_path := os_path_join VS_ROOT_PATH knowledge_base_id in
  Accept ::
  if negb (bool_decide (vs_path ∈ index_dirs s)) then
    [Send (ErrorFrame ("Knowledge base " +:+ knowledge_base_id +:+ " not found"));
     Close]
  else
    stream_loop vs_path inbound
      {| s_history := []; s_turn := 1; s_resp := None |}.

(** *** Feishu webhook *)

Variables FEISHU_APP_ID FEISHU_APP_SECRET : string.

Definition DQUOTE : string := String "034"%char "".

(** [d[key]] for a dict of the envelope. *)
Definition dict_getitem (d : list (string * json)) (key : string)
  : outcome json :=
  match list_find (fun kv => kv.1 = key) d with
  | Some (_, (_, v)) => Return v
  | None => Raise (KeyError key)
  end.

(** [j[key]] for any JSON value, with a [str] key. *)
Definition json_getitem (j : json) (key : string) : outcome json :=
  match j with
  | JDict d => dict_getitem d key
  | JNull => Raise (TypeError "'NoneType' object is not subscriptable")
  | JBool _ => Raise (TypeError "'bool' object is not subscriptable")
  | JNum _ => Raise (TypeError "'int' object is not subscriptable")
  | JStr _ => Raise (TypeError "string indices must be integers")
  | JList _ => Raise (TypeError "list indices must be integers or slices, not str")
  end.

(** [fei_shu.event[key]]: the field is a dict or [None]. *)
Definition event_getitem (fei_shu : FeiShu) (key : string) : outcome json :=
  match event fei_shu with
  | Some d => dict_getitem d key
  | None => Raise (TypeError "'NoneType' object is not subscriptable")
  end.

(** [json.loads(j)]: the argument has to be a [str]. *)
Definition loads (j : json) : outcome json :=
  match j with
  | JStr s =>
      match json_loads s with
      | Some v => Return v
      | None => Raise JSONDecodeError
      end
  | _ => Raise (TypeError "the JSON object must be str, bytes or bytearray")
  end.

(** Where a [str] is required of a JSON value. *)
Definition as_str (j : json) : outcome string :=
  match j with
  | JStr s => Return s
  | _ => Raise (TypeError "can only concatenate str")
  end.

(** [s.replace("\n", "\\n")]. *)
Fixpoint escape_newlines (s : string) : string :=
  match s with
  | "" => ""
  | String c rest =>
      if bool_decide (c = "010"%char) then "\n" +:+ escape_newlines rest
      else String c (escape_newlines rest)
  end.

Definition post (r : http_request) : M string :=
  fun w =>
    (requests_post r,
     {| fs := fs w; engine_log := engine_log w;
        pending := pending w; posted := posted w ++ [r] |}).

Definition feishu_auth : M json :=
  let url :=
    "https://open.feishu.cn/open-apis/auth/v3/tenant_access_token/internal" in
  let resq := [("app_id", FEISHU_APP_ID); ("app_secret", FEISHU_APP_SECRET)] in
  text <~ post {| url := url; body := resq; headers := [] |} ;;
  parsed <~ lift (loads (JStr text)) ;;
  lift (json_getitem parsed "tenant_access_token").

(** The [print] calls only write to the log and are left out.  The engine
    is handed [query] as it is; its interface takes a [str]. *)
Definition feishu_event_async (fei_shu : FeiShu) : M unit :=
  message <~ lift (event_getitem fei_shu "message") ;;
  content <~ lift (json_getitem message "content") ;;
  parsed <~ lift (loads content) ;;
  query <~ lift (json_getitem parsed "text") ;;
  let vs_path := FIXED_VS_PATH in
  found <~ index_exists vs_path ;;
  if negb found then
    raise (ValueError ("Knowledge base " +:+ vs_path +:+ " not found"))
  else
    query <~ lift (as_str query) ;;
    partials <~ call_answer query vs_path [] ;;
    message <~ lift (event_getitem fei_shu "message") ;;
    message_id <~ lift (json_getitem message "message_id") ;;
    let url := "https://open.feishu.cn/open-apis/im/v1/messages/"
               +:+ py_str message_id +:+ "/reply" in
    match last partials with
    | None => raise (UnboundLocalError "resp")
    | Some (resp, _) =>
        let content := "{" +:+ DQUOTE +:+ "text" +:+ DQUOTE +:+ ":" +:+ DQUOTE
                       +:+ escape_newlines (result resp) +:+ DQUOTE +:+ "}" in
        let replay := [("msg_type", "text"); ("content", content)] in
        tenant_access_token <~ feishu_auth ;;
        tenant_access_token <~ lift (as_str tenant_access_token) ;;
        post {| url := url; body := replay;
                headers := [("Authorization", "Bearer " +:+ tenant_access_token)] |} ;;;
        ret tt
    end.

(** [asyncio.create_task(coro)]: the coroutine is queued on the event loop;
    nothing of it runs before the caller next yields. *)
Definition queued (t : task) (w : world) : world :=
  {| fs := fs w; engine_log := engine_log w;
     pending := pending w ++ [t]; posted := posted w |}.

Definition create_task (t : task) : M unit := modify (queued t).

Definition feishu_event (fei_shu : FeiShu) : M FeiShu :=
  create_task (FeishuEventAsync fei_shu) ;;;
  ret fei_shu.

Definition run_task (t : task) : M unit :=
  match t with
  | FeishuEventAsync fei_shu => feishu_event_async fei_shu
  end.

(** The event loop running queued tasks: an exception ends its task and
    nobody retrieves it. *)
Fixpoint run_tasks (ts : list task) (w : world)
  : list (outcome unit) * world :=
  match ts with
  | [] => ([], w)
  | t :: rest =>
      let '(o, w') := run_task t w in
      let '(os, w'') := run_tasks rest w' in
      (o :: os, w'')
  end.

Definition run_pending (w : world) : list (outcome unit) * world :=
  run_tasks (pending w)
    {| fs := fs w; engine_log := engine_log w;
       pending := []; posted := posted w |}.

(** A webhook request from arrival to an idle event loop: the handler runs
    to its [return], which fixes the HTTP response, then the loop runs
    what was queued. *)
Definition serve_feishu_event (fei_shu : FeiShu) (w : world)
  : outcome FeiShu * (list (outcome unit) * world) :=
  let '(answer, w') := feishu_event fei_shu w in
  (answer, run_pending w').

End Api.

(** ** Reading a websocket trace *)

Definition sent_text (e : ws_event) : option string :=
  match e with
  | Send (AnswerText t) => Some t
  | _ => None
  end.

Definition start_turn (e : ws_event) : option nat :=
  match e with
  | Send (StartMarker _ t) => Some t
  | _ => None
  end.

Definition end_turn (e : ws_event) : option nat :=
  match e with
  | Send (EndMarker _ t _) => Some t
  | _ => None
  end.

Definition received (e : ws_event) : option string :=
  match e with
  | Receive q => Some q
  | _ => None
  end.

(** The payloads of the answer-text frames, the turn numbers of the start
    markers and of the end markers, and the questions taken in, each in
    trace order. *)
Definition answer_texts (tr : list ws_event) : list string := omap sent_text tr.
Definition start_turns (tr : list ws_event) : list nat := omap start_turn tr.
Definition end_turns (tr : list ws_event) : list nat := omap end_turn tr.
Definition questions (tr : list ws_event) : list string := omap received tr.

(** [a] is a proper prefix of [b]. *)
Definition strict_prefix (a b : string) : bool :=
  String.prefix a b && Nat.ltb (String.length a) (String.length b).

(** Each text carries the one before it and at least one character more. *)
Fixpoint strictly_growing (texts : list string) : bool :=
  match texts with
  | a :: (b :: _) as rest => strict_prefix a b && strictly_growing rest
  | _ => true
  end.

(** Each text starts with the one before it, the first with [prev]. *)
Fixpoint prefix_chain (prev : string) (texts : list string) : Prop :=
  match texts with
  | [] => True
  | t :: ts => String.prefix prev t = true ∧ prefix_chain t ts
  end.

(** The accumulated text after the partials, [prev] if there are none. *)
Definition final_text (prev : string)
    (partials : list (Resp * list (list string))) : string :=
  from_option (result ∘ fst) prev (last partials).

(** ** Sample data: an engine, worlds and envelopes to run the handlers on *)

Module Demo.

Definition UPLOAD_ROOT : string := "/content".
Definition VS_ROOT : string := "/vector_store".

(** A partial answer [text] to [q]; only a final one carries citations. *)
Definition partial (q : string) (h : list (list string)) (text : string)
    (final : bool) : Resp * list (list string) :=
  ({| result := text;
      resp_source_documents :=
        if final then
          Some [ {| page_content := "excerpt";
                    metadata_source := "/content/kb1/a.txt";
                    metadata_score := 42 |} ]
        else None |},
   h ++ [[q; text]]).

(** An engine that answers every question in three growing partials and
    that incorporates the files it is given iff [accepts]. *)
Definition engine (accepts : bool) : LocalDocQA := {|
  init_knowledge_vector_store := fun filepath vs_path s =>
    let loaded :=
      match filepath with
      | FileList l => if accepts then l else []
      | FolderPath _ => []
      end in
    ((Some vs_path, loaded),
     if accepts then {[ vs_path ]} ∪ index_dirs s else index_dirs s);
  add_files_to_knowledge_vector_store := fun vs_path files s =>
    (if accepts then files else [], index_dirs s);
  get_knowledge_based_answer := fun q vs_path h =>
    [partial q h "A" false; partial q h "An" false; partial q h "Answer" true]
|}.

Definition world_of (u : gmap string (gmap string (list byte)))
    (d : gset string) : world :=
  {| fs := {| uploads := u; index_dirs := d |};
     engine_log := []; pending := []; posted := [] |}.

(** kb1 holds a.txt (1 byte) and b.txt (2 bytes). *)
Definition two_docs : gmap string (gmap string (list byte)) :=
  {[ "kb1" := {[ "a.txt" := [x61]; "b.txt" := [x62; x62] ]} ]}.

(** kb1 holds a.txt (1 byte) only. *)
Definition one_doc : gmap string (gmap string (list byte)) :=
  {[ "kb1" := {[ "a.txt" := [x61] ]} ]}.

(** The handshake the platform sends to verify the URL. *)
Definition handshake : FeiShu :=
  {| challenge := Some "30c1bad8"; type := Some "url_verification";
     token := Some "t0"; header := None; event := None |}.

(** A message event whose content is the JSON text of [{"text": "hi"}]. *)
Definition message_event : FeiShu :=
  {| challenge := None; type := None; token := None;
     header := Some [("event_type", JStr "im.message.receive_v1")];
     event := Some [("message",
                     JDict [("message_id", JStr "om_1");
                            ("content", JStr "CONTENT")])] |}.

Definition loads_demo (s : string) : option json :=
  if bool_decide (s = "CONTENT") then Some (JDict [("text", JStr "hi")])
  else if bool_decide (s = "TOKEN") then
    Some (JDict [("tenant_access_token", JStr "t-1")])
  else None.

Definition str_demo (j : json) : string :=
  match j with
  | JStr s => s
  | _ => "?"
  end.

(** A network where the platform answers, and one where it is unreachable. *)
Definition net_up (r : http_request) : outcome string := Return "TOKEN".
Definition net_down (r : http_request) : outcome string := Raise ConnectionError.

(** The locals of [stream_chat] when its loop is entered. *)
Definition first_session : session :=
  {| s_history := []; s_turn := 1; s_resp := None |}.

(** A session of two questions on kb1, whose index exists. *)
Definition two_turns : list ws_event :=
  stream_chat VS_ROOT (engine true) ["q1"; "q2"] "kb1"
    {| uploads := one_doc; index_dirs := {[ "/vector_store/kb1" ]} |}.

End Demo.

(** ** Further readings of strings and traces *)

(** [c in s]. *)
Fixpoint str_mem (c : ascii) (s : string) : bool :=
  match s with
  | "" => false
  | String x rest => bool_decide (x = c) || str_mem c rest
  end.

Definition engine_call_of (e : ws_event) : option engine_call :=
  match e with
  | Engine c => Some c
  | _ => None
  end.

(** The calls into the engine of a trace, in order. *)
Definition engine_calls (tr : list ws_event) : list engine_call :=
  omap engine_call_of tr.

(** The engine yields at least once for every question, its last partial
    carrying source documents. *)
Definition always_answers (qa : LocalDocQA) : Prop :=
  ∀ q vs_path h, ∃ r h' docs,
    last (get_knowledge_based_answer qa q vs_path h) = Some (r, h') ∧
    resp_source_documents r = Some docs.

(** No text is shorter than the one before it. *)
Fixpoint lengths_grow (texts : list string) : bool :=
  match texts with
  | a :: (b :: _) as rest =>
      Nat.leb (String.length a) (String.length b) && lengths_grow rest
  | _ => true
  end.

(** The request [feishu_auth] sends for a tenant access token. *)
Definition token_request (app_id app_secret : string) : http_request :=
  {| url :=
       "https://open.feishu.cn/open-apis/auth/v3/tenant_access_token/internal";
     body := [("app_id", app_id); ("app_secret", app_secret)];
     headers := [] |}.

(** ** More sample data *)

Module Samples.

(** An engine like [Demo.engine] for the index, answering with [partials]. *)
Definition engine_with
    (partials : string → list (list string) →
                list (Resp * list (list string))) : LocalDocQA := {|
  init_knowledge_vector_store :=
    init_knowledge_vector_store (Demo.engine true);
  add_files_to_knowledge_vector_store :=
    add_files_to_knowledge_vector_store (Demo.engine true);
  get_knowledge_based_answer := fun q vs_path h => partials q h
|}.

(** It yields nothing. *)
Definition engine_silent : LocalDocQA := engine_with (fun q h => []).

(** It yields the complete answer at once. *)
Definition engine_final_only : LocalDocQA :=
  engine_with (fun q h => [Demo.partial q h "Answer" true]).

(** Its only partial carries no source documents. *)
Definition engine_no_sources : LocalDocQA :=
  engine_with (fun q h => [Demo.partial q h "Answer" false]).

(** It rewrites its answer as it goes: each partial is longer than the one
    before, none starts with it. *)
Definition engine_rewriting : LocalDocQA :=
  engine_with (fun q h =>
    [Demo.partial q h "A" false; Demo.partial q h "Bn" false;
     Demo.partial q h "Cnswer" true]).

(** The locals of [stream_chat] after a first turn answered by
    [Demo.engine]. *)
Definition second_session : session :=
  {| s_history := [["q1"; "Answer"]]; s_turn := 2;
     s_resp := Some (Demo.partial "q1" [] "Answer" true).1 |}.

(** kb1 with a.txt, without index and with the fixed index location. *)
Definition plain : world := Demo.world_of Demo.one_doc ∅.
Definition indexed : world := Demo.world_of Demo.one_doc {[ FIXED_VS_PATH ]}.

(** A file system where kb1 has its index. *)
Definition kb1_indexed : filesystem :=
  {| uploads := Demo.one_doc; index_dirs := {[ "/vector_store/kb1" ]} |}.

End Samples.

(** ** Properties *)

Ltac unfold_m :=
  unfold folder_exists, file_exists, exists_with_size, index_exists,
    os_makedirs, os_remove, shutil_rmtree in *;
  unfold bind, ret, raise, lift, gets, modify in *.

(** Closes a decidable goal about concrete data by evaluation. *)
Ltac decide_closed :=
  match goal with
  | |- ?P => apply (bool_decide_unpack P); vm_compute; exact I
  end.

(** *** Strings *)

Section Strings.

Lemma str_app_cons (x : ascii) (a b : string) :
  String x a +:+ b = String x (a +:+ b).
Proof. reflexivity. Qed.

Lemma str_app_assoc (a b c : string) : (a +:+ b) +:+ c = a +:+ (b +:+ c).
Proof.
  induction a as [|x a IH]; [done|]. rewrite !str_app_cons. by f_equal.
Qed.

Lemma str_app_empty_r (a : string) : a +:+ "" = a.
Proof.
  induction a as [|x a IH]; [done|]. rewrite str_app_cons. by f_equal.
Qed.

(** A text that starts with [a] is [a] followed by its slice [[len(a):]]. *)
Lemma prefix_decompose (a b : string) :
  String.prefix a b = true → b = a +:+ str_from (String.length a) b.
Proof.
  revert b. induction a as [|x a IH]; intros b Hp.
  - by destruct b.
  - destruct b as [|y b]; simpl in Hp; [done|].
    destruct (Ascii.ascii_dec x y) as [->|]; [|done].
    rewrite str_app_cons. simpl. f_equal. by apply IH.
Qed.

Lemma str_join_empty_cons (a : string) (l : list string) :
  str_join "" (a :: l) = a +:+ str_join "" l.
Proof. destruct l; simpl; [by rewrite str_app_empty_r | done]. Qed.

Lemma strictly_growing_chain (t : string) (ts : list string) :
  strictly_growing (t :: ts) = true → prefix_chain t ts.
Proof.
  revert t. induction ts as [|t' ts IH]; intros t Hg; [done|].
  simpl in Hg. apply andb_true_iff in Hg as [Hp Hg].
  unfold strict_prefix in Hp. apply andb_true_iff in Hp as [Hp _].
  split; [done|]. by apply IH.
Qed.

End Strings.

(** *** Document store: delete *)

Section DocumentStore.

Variables UPLOAD_ROOT_PATH VS_ROOT_PATH : string.
Variable local_doc_qa : LocalDocQA.

Local Abbreviation delete_docs' :=
  (delete_docs UPLOAD_ROOT_PATH VS_ROOT_PATH local_doc_qa).
Local Abbreviation single_upload_file' :=
  (single_upload_file UPLOAD_ROOT_PATH VS_ROOT_PATH local_doc_qa).
Local Abbreviation upload_file' :=
  (upload_file UPLOAD_ROOT_PATH VS_ROOT_PATH local_doc_qa).
Local Abbreviation upload_file_loop' := (upload_file_loop UPLOAD_ROOT_PATH).
Local Abbreviation incorporated' :=
  (incorporated UPLOAD_ROOT_PATH VS_ROOT_PATH local_doc_qa).
Local Abbreviation file_path' kb name :=
  (os_path_join (get_folder_path UPLOAD_ROOT_PATH kb) name).
Local Abbreviation vs_path' kb := (get_vs_path VS_ROOT_PATH kb).

(** [list_docs] answers with a model object or with a dict whose code is 1:
    never with something whose ["code"] reads as 0. *)
Lemma list_docs_code (kb : option string) (w : world) :
  ∃ r, list_docs kb w = (Return r, w) ∧
       ((∃ m, r = ListDocs m) ∨
        (∃ d, r = Dict d ∧ d !! "code" = Some (VInt 1))).
Proof.
  unfold list_docs. destruct (truthy kb) as [id|]; unfold_m.
  - destruct (uploads (fs w) !! id) as [folder|].
    + eexists; split; [reflexivity|]. left. eauto.
    + eexists; split; [reflexivity|]. right.
      eexists. split; [reflexivity|]. reflexivity.
  - eexists; split; [reflexivity|]. left. eauto.
Qed.

(** X14.  Deleting a document that exists: the file goes, and the subscript
    on what [list_docs] returned raises before either branch of the
    remaining-documents test is taken; nothing else changes. *)
Lemma delete_docs_existing_doc (w : world) (kb doc : string)
    (folder : gmap string (list byte)) :
  doc ≠ "" →
  uploads (fs w) !! kb = Some folder →
  is_Some (folder !! doc) →
  delete_docs' kb (Some doc) w
  = (Raise (TypeError "'ListDocsResponse' object is not subscriptable"),
     set_fs (set_uploads (alter (delete doc) kb)) w).
Proof.
  intros Hdoc Hkb Hfile. destruct doc as [|a d]; [done|].
  unfold delete_docs. unfold_m. unfold stored_file.
  rewrite Hkb. simpl. rewrite Hkb. simpl.
  rewrite bool_decide_eq_true_2 by done.
  unfold list_docs.
  destruct (truthy (Some kb)) as [id|] eqn:Hid; unfold_m; simpl.
  - assert (id = kb) as -> by (destruct kb; simpl in Hid; congruence).
    rewrite lookup_alter_eq, Hkb. reflexivity.
  - reflexivity.
Qed.

(** X13.  No path through [delete_docs] reaches the engine: the rebuild
    branch needs ["code"] to read as 0. *)
Lemma delete_docs_never_rebuilds (w : world) (kb : string)
    (doc : option string) :
  engine_log (delete_docs' kb doc w).2 = engine_log w.
Proof.
  unfold delete_docs. unfold_m.
  destruct (bool_decide _); simpl; [|done].
  destruct (truthy doc) as [d|]; [|done].
  destruct (bool_decide _); simpl; [|done].
  match goal with
  | |- context [list_docs ?k ?w'] =>
      destruct (list_docs_code k w') as (r & -> & Hr)
  end.
  destruct Hr as [[m ->]|(d' & -> & Hd)]; simpl; [done|].
  rewrite Hd. reflexivity.
Qed.

(** *** Document store: upload *)

Lemma same_size_stored_folder (s : filesystem) (kb name : string) (n : nat) :
  same_size_stored s kb name n = true → is_Some (uploads s !! kb).
Proof.
  unfold same_size_stored, stored_file.
  destruct (uploads s !! kb); [eauto | discriminate].
Qed.

(** A single-file upload of a same-named, same-sized file changes nothing
    and answers 200 with the already-exists message. *)
Lemma single_upload_file_duplicate (w : world) (kb name : string)
    (bytes : list byte) :
  same_size_stored (fs w) kb name (length bytes) = true →
  single_upload_file' name bytes kb w
  = (Return {| code := 200; msg := "文件 " +:+ name +:+ " 已存在。" |}, w).
Proof.
  intros Hdup. unfold single_upload_file. unfold_m.
  rewrite bool_decide_eq_true_2 by eauto using same_size_stored_folder.
  simpl. rewrite Hdup. reflexivity.
Qed.

(** A single-file upload that is not such a duplicate: it returns, the
    upload tree is the old one with the file written, the code follows the
    engine's report, and the engine got exactly one request. *)
Lemma single_upload_file_writes (w : world) (kb name : string)
    (bytes : list byte) :
  same_size_stored (fs w) kb name (length bytes) = false →
  ∃ r w',
    single_upload_file' name bytes kb w = (Return r, w') ∧
    uploads (fs w') = uploads (written kb name bytes (fs w)) ∧
    code r = (if Nat.ltb 0 (length (incorporated' kb name
                                      (written kb name bytes (fs w))))
              then 200 else 500)%Z ∧
    engine_log w' = engine_log w ++
      [if bool_decide (vs_path' kb ∈ index_dirs (fs w))
       then CallAddFiles (vs_path' kb) [file_path' kb name]
       else CallInit (FileList [file_path' kb name]) (vs_path' kb)].
Proof.
  intros Hnew. unfold single_upload_file. unfold_m.
  unfold write_file, call_add_files, call_init, incorporated, written.
  unfold set_fs, set_uploads, log_call, set_index_dirs.
  destruct (uploads (fs w) !! kb) as [folder|] eqn:Hkb; simpl.
  - rewrite Hnew, Hkb. simpl.
    destruct (bool_decide (vs_path' kb ∈ index_dirs (fs w))); simpl.
    + destruct (add_files_to_knowledge_vector_store _ _ _ _) as [added dirs].
      simpl. destruct (Nat.ltb 0 (length added));
        do 2 eexists; (split; [reflexivity|]); simpl; done.
    + destruct (init_knowledge_vector_store _ _ _ _) as [[v loaded] dirs].
      simpl. destruct (Nat.ltb 0 (length loaded));
        do 2 eexists; (split; [reflexivity|]); simpl; done.
  - unfold same_size_stored, stored_file. simpl.
    rewrite !lookup_insert_eq. simpl. rewrite lookup_empty. simpl.
    rewrite lookup_insert_eq. simpl. rewrite !insert_insert_eq.
    destruct (bool_decide (vs_path' kb ∈ index_dirs (fs w))); simpl.
    + destruct (add_files_to_knowledge_vector_store _ _ _ _) as [added dirs].
      simpl. destruct (Nat.ltb 0 (length added));
        do 2 eexists; (split; [reflexivity|]); simpl; done.
    + destruct (init_knowledge_vector_store _ _ _ _) as [[v loaded] dirs].
      simpl. destruct (Nat.ltb 0 (length loaded));
        do 2 eexists; (split; [reflexivity|]); simpl; done.
Qed.

(** The loop of [upload_file] never raises once the folder exists, keeps
    the folder, touches neither the index nor the engine, and leaves alone
    every name that is not in the batch. *)
Lemma upload_file_loop_frame (kb : string)
    (files : list (string * list byte)) :
  ∀ (filelist : list string) (w : world),
    is_Some (uploads (fs w) !! kb) →
    ∃ fl w',
      upload_file_loop' kb files filelist w = (Return fl, w') ∧
      is_Some (uploads (fs w') !! kb) ∧
      (∀ n, n ∉ files.*1 →
            stored_file (fs w') kb n = stored_file (fs w) kb n) ∧
      index_dirs (fs w') = index_dirs (fs w) ∧
      engine_log w' = engine_log w.
Proof.
  induction files as [|[name bytes] rest IH]; intros filelist w Hkb; simpl.
  - unfold ret. eauto 10.
  - unfold_m. destruct (same_size_stored (fs w) kb name (length bytes)).
    + destruct (IH filelist w Hkb)
        as (fl & w' & -> & Hkb' & Hother & Hidx & Hlog).
      exists fl, w'. split_and!; [done..| |done|done].
      intros n Hn. apply not_elem_of_cons in Hn as [_ Hn]. by apply Hother.
    + unfold write_file. destruct Hkb as [folder Hkb]. rewrite Hkb.
      match goal with
      | |- context [upload_file_loop' kb rest ?fl' ?w1] =>
          destruct (IH fl' w1)
            as (fl & w' & -> & Hkb' & Hother & Hidx & Hlog)
      end.
      { simpl. rewrite lookup_insert_eq. eauto. }
      exists fl, w'. split_and!; [done..| |done|done].
      intros n Hn. apply not_elem_of_cons in Hn as [Hne Hn].
      rewrite Hother by done.
      unfold stored_file. simpl. rewrite lookup_insert_eq, Hkb. simpl.
      by apply lookup_insert_ne.
Qed.

(** A file of the batch whose name is new to the knowledge base, and occurs
    once in the batch, ends up stored with exactly its bytes. *)
Lemma upload_file_loop_fresh (kb name : string) (bytes : list byte)
    (files : list (string * list byte)) :
  ∀ (filelist : list string) (w : world),
    is_Some (uploads (fs w) !! kb) →
    NoDup files.*1 →
    (name, bytes) ∈ files →
    stored_file (fs w) kb name = None →
    stored_file (fs (upload_file_loop' kb files filelist w).2) kb name
    = Some bytes.
Proof.
  induction files as [|[name' bytes'] rest IH];
    intros filelist w Hkb Hnd Hin Hnew.
  - by apply elem_of_nil in Hin.
  - simpl in Hnd. apply NoDup_cons in Hnd as [Hfirst Hnd].
    simpl. unfold_m.
    destruct (decide (name' = name)) as [->|Hne].
    + assert (bytes' = bytes) as ->.
      { apply elem_of_cons in Hin as [Heq|Hin]; [congruence|].
        exfalso. apply Hfirst. apply list_elem_of_fmap.
        by exists (name, bytes). }
      unfold same_size_stored. rewrite Hnew.
      unfold write_file. destruct Hkb as [folder Hkb]. rewrite Hkb.
      match goal with
      | |- context [upload_file_loop' kb rest ?fl' ?w1] =>
          destruct (upload_file_loop_frame kb rest fl' w1)
            as (fl & w' & -> & _ & Hother & _ & _)
      end.
      { simpl. rewrite lookup_insert_eq. eauto. }
      simpl. rewrite Hother by done.
      unfold stored_file in *. simpl. rewrite lookup_insert_eq. simpl.
      rewrite lookup_insert_eq. rewrite Hkb in Hnew. simpl in Hnew.
      by rewrite Hnew.
    + assert ((name, bytes) ∈ rest) as Hin'.
      { apply elem_of_cons in Hin as [Heq|Hin]; [congruence|done]. }
      destruct (same_size_stored (fs w) kb name' (length bytes')).
      * by apply IH.
      * unfold write_file. destruct Hkb as [folder Hkb]. rewrite Hkb.
        apply IH; try done.
        { simpl. rewrite lookup_insert_eq. eauto. }
        unfold stored_file in *. simpl. rewrite lookup_insert_eq. simpl.
        rewrite lookup_insert_ne by done. by rewrite Hkb in Hnew.
Qed.

Lemma upload_file_fresh (w : world) (kb name : string) (bytes : list byte)
    (files : list (string * list byte)) :
  NoDup files.*1 →
  (name, bytes) ∈ files →
  stored_file (fs w) kb name = None →
  stored_file (fs (upload_file' files kb w).2) kb name = Some bytes.
Proof.
  intros Hnd Hin Hnew. unfold upload_file. unfold_m.
  assert (∀ w1, is_Some (uploads (fs w1) !! kb) →
                stored_file (fs w1) kb name = None →
                ∃ fl w', upload_file_loop' kb files [] w1 = (Return fl, w') ∧
                         stored_file (fs w') kb name = Some bytes) as Hloop.
  { intros w1 Hkb1 Hnew1.
    pose proof (upload_file_loop_fresh kb name bytes files [] w1
                  Hkb1 Hnd Hin Hnew1) as Hfresh.
    destruct (upload_file_loop_frame kb files [] w1 Hkb1)
      as (fl & w' & Hrun & _).
    rewrite Hrun in Hfresh. eauto. }
  destruct (uploads (fs w) !! kb) as [folder|] eqn:Hkb; simpl.
  - destruct (Hloop w) as (fl & w' & -> & Hfresh); [by rewrite Hkb|done|].
    destruct fl as [|p fl]; [done|].
    unfold call_init.
    destruct (init_knowledge_vector_store _ _ _ _) as [[v loaded] dirs].
    simpl. destruct (negb _); simpl; exact Hfresh.
  - match goal with
    | |- context [upload_file_loop' kb files [] ?w1] =>
        destruct (Hloop w1) as (fl & w' & -> & Hfresh)
    end.
    { simpl. rewrite lookup_insert_eq. eauto. }
    { unfold stored_file. simpl. rewrite lookup_insert_eq. simpl.
      apply lookup_empty. }
    destruct fl as [|p fl]; [done|].
    unfold call_init.
    destruct (init_knowledge_vector_store _ _ _ _) as [[v loaded] dirs].
    simpl. destruct (negb _); simpl; exact Hfresh.
Qed.

(** A batch made of same-named, same-sized files only: every file is
    skipped, nothing changes, and the answer is the 500 of the fall-through. *)
Lemma upload_file_loop_duplicates (kb : string)
    (files : list (string * list byte)) (w : world) :
  ∀ filelist : list string,
    Forall (λ f, same_size_stored (fs w) kb f.1 (length f.2) = true) files →
    upload_file_loop' kb files filelist w = (Return filelist, w).
Proof.
  induction files as [|[name bytes] rest IH]; intros filelist Hdup; [done|].
  apply Forall_cons in Hdup as [Hfirst Hrest]. simpl in *.
  unfold_m. rewrite Hfirst. by apply IH.
Qed.

(** X7.  A batch made of same-named, same-sized files only changes nothing
    and is answered with code 500 and the not-loaded message. *)
Lemma upload_file_all_duplicates (w : world) (kb : string)
    (files : list (string * list byte)) :
  files ≠ [] →
  Forall (λ f, same_size_stored (fs w) kb f.1 (length f.2) = true) files →
  upload_file' files kb w
  = (Return {| code := 500; msg := "文件未成功加载，请重新上传文件" |}, w).
Proof.
  intros Hne Hdup. unfold upload_file. unfold_m.
  assert (is_Some (uploads (fs w) !! kb)) as Hkb.
  { destruct files as [|f rest]; [done|].
    apply Forall_cons in Hdup as [Hfirst _].
    eauto using same_size_stored_folder. }
  rewrite bool_decide_eq_true_2 by done. simpl.
  by rewrite (upload_file_loop_duplicates kb files w [] Hdup).
Qed.


(** C6, as the code has it.  A single-file upload that is not skipped as a
    size-identical duplicate sends the engine exactly one request, for the
    uploaded file alone: a full initial build when no index exists for the
    knowledge base, an incremental extension when one exists. *)
Theorem single_upload_file_index_request (w : world) (kb name : string)
    (bytes : list byte) :
  same_size_stored (fs w) kb name (length bytes) = false →
  engine_log (single_upload_file' name bytes kb w).2
  = engine_log w ++
    [if bool_decide (vs_path' kb ∈ index_dirs (fs w))
     then CallAddFiles (vs_path' kb) [file_path' kb name]
     else CallInit (FileList [file_path' kb name]) (vs_path' kb)].
Proof.
  intros Hnew.
  destruct (single_upload_file_writes w kb name bytes Hnew)
    as (r & w' & -> & _ & _ & Hlog).
  exact Hlog.
Qed.

End DocumentStore.

(** *** Streaming sessions *)

Section Streaming.

Variable VS_ROOT_PATH : string.
Variable local_doc_qa : LocalDocQA.

Local Abbreviation stream_turn' := (stream_turn local_doc_qa).
Local Abbreviation stream_loop' := (stream_loop local_doc_qa).
Local Abbreviation stream_chat' := (stream_chat VS_ROOT_PATH local_doc_qa).
Local Abbreviation answer' := (get_knowledge_based_answer local_doc_qa).

(** Along a chain of prefixes, the slices sent add up to what the last
    partial has beyond [prev]. *)
Lemma send_partials_concat (partials : list (Resp * list (list string))) :
  ∀ prev : string,
    prefix_chain prev (result ∘ fst <$> partials) →
    final_text prev partials
    = prev +:+ str_join ""
                 (answer_texts (send_partials (String.length prev) partials)).
Proof.
  induction partials as [|[r h] ps IH]; intros prev Hc.
  - unfold final_text. simpl. by rewrite str_app_empty_r.
  - simpl in Hc. destruct Hc as [Hp Hc].
    assert (final_text prev ((r, h) :: ps) = final_text (result r) ps) as ->.
    { unfold final_text. rewrite last_cons. by destruct (last ps). }
    rewrite (IH _ Hc). simpl send_partials.
    unfold answer_texts at 2. simpl omap.
    fold (answer_texts (send_partials (String.length (result r)) ps)).
    rewrite str_join_empty_cons, <- str_app_assoc.
    by rewrite <- (prefix_decompose _ _ Hp).
Qed.

(** The answer-text frames of a turn are those of its inner loop. *)
Lemma answer_texts_stream_turn (vs_path q : string) (st : session) :
  answer_texts (stream_turn' vs_path q st).1
  = answer_texts (send_partials 0 (answer' q vs_path (s_history st))).
Proof.
  unfold stream_turn.
  destruct (from_option _ _ _) as [r|]; [destruct (resp_source_documents r)|];
    simpl; unfold answer_texts; rewrite omap_app; simpl; by rewrite app_nil_r.
Qed.

(** C5.  In every turn of a streaming session, if the partials the engine
    yields are strictly growing, each carrying the whole answer so far, then
    the answer-text frames sent in that turn, put end to end, are exactly
    the text of the last partial: nothing twice, nothing missing. *)
Theorem stream_turn_deltas_concat (vs_path q : string) (st : session)
    (r : Resp) (h : list (list string)) :
  strictly_growing (result ∘ fst <$> answer' q vs_path (s_history st)) = true →
  last (answer' q vs_path (s_history st)) = Some (r, h) →
  str_join "" (answer_texts (stream_turn' vs_path q st).1) = result r.
Proof.
  intros Hg Hlast. rewrite answer_texts_stream_turn.
  destruct (answer' _ _ _) as [|[r0 h0] ps]; [done|].
  apply strictly_growing_chain in Hg.
  pose proof (send_partials_concat ((r0, h0) :: ps) "") as Hc.
  unfold final_text in Hc. rewrite Hlast in Hc. simpl in Hc.
  rewrite Hc; [done|].
  split; [by destruct (result r0) | done].
Qed.

Lemma send_partials_no_marker (n : nat)
    (partials : list (Resp * list (list string))) :
  start_turns (send_partials n partials) = [] ∧
  end_turns (send_partials n partials) = [] ∧
  questions (send_partials n partials) = [].
Proof.
  revert n. induction partials as [|[r h] ps IH]; intros n; [done|].
  simpl. apply IH.
Qed.

(** Shape of one turn: the question, its start marker, then frames among
    which the only marker is the end marker of the same turn, present iff
    the turn completes; a completed turn advances the counter by one. *)
Lemma stream_turn_shape (vs_path q : string) (st : session) :
  ∃ body,
    (stream_turn' vs_path q st).1
    = Receive q :: Send (StartMarker q (s_turn st)) :: body ∧
    questions body = [] ∧
    start_turns body = [] ∧
    match (stream_turn' vs_path q st).2 with
    | Some st' => end_turns body = [s_turn st] ∧ s_turn st' = S (s_turn st)
    | None => end_turns body = []
    end.
Proof.
  unfold stream_turn.
  set (partials := get_knowledge_based_answer _ _ _ _).
  destruct (send_partials_no_marker 0 partials) as (Hs & He & Hq).
  destruct (from_option _ _ _) as [r|]; [destruct (resp_source_documents r)|];
    simpl; eexists; (split; [reflexivity|]);
    unfold questions, start_turns, end_turns in *; simpl;
    rewrite !omap_app, Hs, He, Hq; simpl; split_and!; try done; lia.
Qed.

(** From any state of the loop, the markers count up from the current
    turn number in steps of one. *)
Lemma stream_loop_turns (vs_path : string) (inbound : list string) :
  ∀ st : session,
    start_turns (stream_loop' vs_path inbound st)
    = seq (s_turn st)
        (length (start_turns (stream_loop' vs_path inbound st))) ∧
    end_turns (stream_loop' vs_path inbound st)
    = seq (s_turn st) (length (end_turns (stream_loop' vs_path inbound st))).
Proof.
  induction inbound as [|q rest IH]; intros st; [done|].
  simpl.
  destruct (stream_turn_shape vs_path q st) as (body & Hev & _ & Hs & Hnext).
  destruct (stream_turn' vs_path q st) as [events next]. simpl in Hev, Hnext.
  subst events. unfold start_turns, end_turns in *.
  simpl. rewrite !omap_app, Hs. simpl.
  destruct next as [st'|].
  - destruct Hnext as [-> Hturn]. destruct (IH st') as [IHs IHe].
    rewrite Hturn in IHs, IHe. simpl. split; f_equal; done.
  - rewrite Hnext. done.
Qed.

(** A question found after frames that hold none lies in what follows. *)
Lemma split_before_receive (body rest pre post : list ws_event) (q : string) :
  questions body = [] →
  body ++ rest = pre ++ Receive q :: post →
  ∃ pre', pre = body ++ pre' ∧ rest = pre' ++ Receive q :: post.
Proof.
  revert pre. induction body as [|e body IH]; intros pre Hq Heq.
  - by exists pre.
  - unfold questions in Hq. simpl in Hq.
    destruct (received e) eqn:He; [done|].
    destruct pre as [|e' pre]; simpl in Heq.
    + injection Heq as -> _. done.
    + injection Heq as -> Heq. destruct (IH pre Hq Heq) as (pre' & -> & ->).
      by exists pre'.
Qed.

(** When the loop takes a question in, every earlier question has had its
    end marker, and the question opens the next turn. *)
Lemma stream_loop_sequential (vs_path : string) (inbound : list string) :
  ∀ (st : session) (pre post : list ws_event) (q : string),
    stream_loop' vs_path inbound st = pre ++ Receive q :: post →
    end_turns pre = seq (s_turn st) (length (questions pre)) ∧
    ∃ post',
      post = Send (StartMarker q (s_turn st + length (questions pre)))
             :: post'.
Proof.
  induction inbound as [|q0 rest IH]; intros st pre post q Heq.
  - simpl in Heq. destruct pre as [|e [|e' pre]]; done.
  - simpl in Heq.
    destruct (stream_turn_shape vs_path q0 st)
      as (body & Hev & Hq & Hs & Hnext).
    destruct (stream_turn' vs_path q0 st) as [events next].
    simpl in Hev, Hnext.
    subst events. destruct pre as [|e pre]; simpl in Heq.
    + injection Heq as -> <-. split; [done|]. rewrite Nat.add_0_r. eauto.
    + injection Heq as <- Heq.
      destruct (split_before_receive
                  (Send (StartMarker q0 (s_turn st)) :: body) _ pre post q
                  Hq Heq) as (pre' & -> & Htail).
      destruct next as [st'|]; [|by destruct pre'].
      destruct Hnext as [He Hturn].
      destruct (IH st' pre' post q Htail) as [IHe [post' ->]].
      unfold end_turns, questions in *. simpl.
      rewrite !omap_app, He, Hq, IHe, Hturn. simpl.
      split; [done|]. exists post'. do 3 f_equal. lia.
Qed.

(** A list that starts a run of consecutive numbers is itself such a run. *)
Lemma seq_prefix (l1 l2 : list nat) :
  ∀ a n : nat, l1 ++ l2 = seq a n → l1 = seq a (length l1).
Proof.
  induction l1 as [|x l1 IH]; intros a n Heq; [done|].
  destruct n as [|n]; simpl in Heq; [done|].
  injection Heq as -> Heq. simpl. f_equal. by eapply IH.
Qed.

(** X24.  The markers sent up to any point of a session, such as the point
    where the transport goes away, count 1, 2, 3, ... as well. *)
Lemma stream_chat_turns_so_far (inbound : list string) (kb : string)
    (s : filesystem) (tr rest : list ws_event) :
  stream_chat' inbound kb s = tr ++ rest →
  start_turns tr = seq 1 (length (start_turns tr)) ∧
  end_turns tr = seq 1 (length (end_turns tr)).
Proof.
  intros Heq.
  assert (start_turns (stream_chat' inbound kb s)
          = seq 1 (length (start_turns (stream_chat' inbound kb s))) ∧
          end_turns (stream_chat' inbound kb s)
          = seq 1 (length (end_turns (stream_chat' inbound kb s))))
    as [Hs He].
  { unfold stream_chat. destruct (negb _); [done|].
    apply (stream_loop_turns (os_path_join VS_ROOT_PATH kb) inbound
             {| s_history := []; s_turn := 1; s_resp := None |}). }
  rewrite Heq in Hs, He. unfold start_turns, end_turns in *.
  rewrite omap_app in Hs, He.
  split; by eapply seq_prefix.
Qed.

(** C7.  In every streaming session the turn numbers of the start markers
    are 1, 2, 3, ... and so are those of the end markers, whatever came
    before the session; and whenever a question is taken in, the end markers
    of all earlier questions have been sent and the question opens the turn
    numbered one more than the questions before it. *)
Theorem stream_chat_turns (inbound : list string) (kb : string)
    (s : filesystem) :
  start_turns (stream_chat' inbound kb s)
  = seq 1 (length (start_turns (stream_chat' inbound kb s))) ∧
  end_turns (stream_chat' inbound kb s)
  = seq 1 (length (end_turns (stream_chat' inbound kb s))) ∧
  ∀ (pre post : list ws_event) (q : string),
    stream_chat' inbound kb s = pre ++ Receive q :: post →
    end_turns pre = seq 1 (length (questions pre)) ∧
    ∃ post',
      post = Send (StartMarker q (S (length (questions pre)))) :: post'.
Proof.
  unfold stream_chat. destruct (negb _).
  - split_and!; [done..|].
    intros [|e [|e' [|e'' [|e3 pre]]]] post q Heq; done.
  - set (st := {| s_history := []; s_turn := 1; s_resp := None |}).
    destruct (stream_loop_turns (os_path_join VS_ROOT_PATH kb) inbound st)
      as [Hs He].
    split_and!; [done..|].
    intros [|e pre] post q Heq; [done|].
    injection Heq as <- Heq.
    apply (stream_loop_sequential _ _ _ _ _ _ Heq).
Qed.

(** C8.  A streaming session opened on a knowledge-base id with no index
    location accepts the connection, sends one error frame and closes:
    no question is received, the engine is not called. *)
Theorem stream_chat_unknown_kb (inbound : list string) (kb : string)
    (s : filesystem) :
  os_path_join VS_ROOT_PATH kb ∉ index_dirs s →
  stream_chat' inbound kb s
  = [Accept;
     Send (ErrorFrame ("Knowledge base " +:+ kb +:+ " not found"));
     Close].
Proof.
  intros Hno. unfold stream_chat.
  by rewrite bool_decide_eq_false_2.
Qed.

End Streaming.

(** *** Single-shot chat and the webhook *)

(** C10, as the code has it.  Two [chat] calls that differ only in the
    knowledge-base id consult the same fixed index location: when it exists
    they do the same thing and return the same result, the engine being
    asked about that location; when it does not, each raises a [ValueError]
    naming its own id, and nothing else happens. *)
Theorem chat_ignores_knowledge_base_id (local_doc_qa : LocalDocQA)
    (kb1 kb2 q : string) (h : list (list string)) (w : world) :
  chat local_doc_qa kb1 q h w
  = (if bool_decide (FIXED_VS_PATH ∈ index_dirs (fs w))
     then chat local_doc_qa kb2 q h w
     else (Raise (ValueError ("Knowledge base " +:+ kb1 +:+ " not found")),
           w)) ∧
  engine_log (chat local_doc_qa kb1 q h w).2
  = engine_log w ++
    (if bool_decide (FIXED_VS_PATH ∈ index_dirs (fs w))
     then [CallAnswer q FIXED_VS_PATH h] else []).
Proof.
  unfold chat. unfold_m. unfold call_answer.
  destruct (bool_decide (FIXED_VS_PATH ∈ index_dirs (fs w))); simpl.
  - split; [done|].
    destruct (last _) as [[resp h']|]; simpl; [|done].
    by destruct (resp_getitem_source_documents resp).
  - by rewrite app_nil_r.
Qed.


(** ** The handlers on the sample data *)

(** C1.  kb1 holds a.txt and b.txt and a.txt is deleted: the file goes,
    then the handler raises on [remain_docs["code"]]; the folder stays and
    the engine is asked for no rebuild.  When a.txt is the only document the
    same happens, and the emptied folder stays. *)
Theorem delete_docs_raises_before_rebuild :
  delete_docs Demo.UPLOAD_ROOT Demo.VS_ROOT (Demo.engine true)
    "kb1" (Some "a.txt") (Demo.world_of Demo.two_docs ∅)
  = (Raise (TypeError "'ListDocsResponse' object is not subscriptable"),
     Demo.world_of {[ "kb1" := {[ "b.txt" := [x62; x62] ]} ]} ∅) ∧
  delete_docs Demo.UPLOAD_ROOT Demo.VS_ROOT (Demo.engine true)
    "kb1" (Some "a.txt") (Demo.world_of Demo.one_doc ∅)
  = (Raise (TypeError "'ListDocsResponse' object is not subscriptable"),
     Demo.world_of {[ "kb1" := ∅ ]} ∅).
Proof. split; by vm_compute. Qed.

(** C2.  [chat] tests the fixed location, not the index of the knowledge
    base it is given: with no index for kb1 but the fixed location present
    it answers, and with an index for kb1 but the fixed location absent it
    raises. *)
Theorem chat_checks_fixed_index_location :
  ((get_vs_path Demo.VS_ROOT "kb1" ∉ ({[ FIXED_VS_PATH ]} : gset string)) ∧
   (chat (Demo.engine true) "kb1" "q" []
      (Demo.world_of Demo.one_doc {[ FIXED_VS_PATH ]})).1
   = Return {| question := "q"; response := "Answer";
               history := [["q"; "Answer"]];
               source_documents :=
                 render_sources [ {| page_content := "excerpt";
                                     metadata_source := "/content/kb1/a.txt";
                                     metadata_score := 42 |} ] |}) ∧
  ((get_vs_path Demo.VS_ROOT "kb1"
      ∈ ({[ get_vs_path Demo.VS_ROOT "kb1" ]} : gset string)) ∧
   (chat (Demo.engine true) "kb1" "q" []
      (Demo.world_of Demo.one_doc {[ get_vs_path Demo.VS_ROOT "kb1" ]})).1
   = Raise (ValueError "Knowledge base kb1 not found")).
Proof.
  split_and!; [decide_closed | by vm_compute | decide_closed | by vm_compute].
Qed.

(** C3.  kb1 holds a.txt of one byte and a batch upload brings a one-byte
    a.txt: the file is skipped, nothing changes, and the answer is 500 with
    the not-loaded message. *)
Theorem upload_file_duplicate_reports_failure :
  same_size_stored (fs (Demo.world_of Demo.one_doc ∅)) "kb1" "a.txt"
    (length [x63]) = true ∧
  upload_file Demo.UPLOAD_ROOT Demo.VS_ROOT (Demo.engine true)
    [("a.txt", [x63])] "kb1" (Demo.world_of Demo.one_doc ∅)
  = (Return {| code := 500; msg := "文件未成功加载，请重新上传文件" |},
     Demo.world_of Demo.one_doc ∅).
Proof. split; by vm_compute. Qed.

(** The same upload through [single_upload_file] answers 200. *)
Example single_upload_file_duplicate_demo :
  single_upload_file Demo.UPLOAD_ROOT Demo.VS_ROOT (Demo.engine true)
    "a.txt" [x63] "kb1" (Demo.world_of Demo.one_doc ∅)
  = (Return {| code := 200; msg := "文件 a.txt 已存在。" |},
     Demo.world_of Demo.one_doc ∅).
Proof. by vm_compute. Qed.


(** A batch upload of a same-named file of another size appends: the
    file is opened in mode "ab+". *)
Example upload_file_appends :
  stored_file
    (fs (upload_file Demo.UPLOAD_ROOT Demo.VS_ROOT (Demo.engine true)
           [("a.txt", [x63; x64])] "kb1" (Demo.world_of Demo.one_doc ∅)).2)
    "kb1" "a.txt" = Some [x61; x63; x64].
Proof. by vm_compute. Qed.


(** C6, against the statement for every single-file upload: kb1 has no
    index, a one-byte a.txt is uploaded where a one-byte a.txt is stored,
    and the engine is asked for nothing. *)
Lemma duplicate_upload_builds_no_index :
  (get_vs_path Demo.VS_ROOT "kb1"
     ∉ index_dirs (fs (Demo.world_of Demo.one_doc ∅))) ∧
  engine_log
    (single_upload_file Demo.UPLOAD_ROOT Demo.VS_ROOT (Demo.engine true)
       "a.txt" [x63] "kb1" (Demo.world_of Demo.one_doc ∅)).2 = [].
Proof. split; [decide_closed | by vm_compute]. Qed.

Lemma single_upload_file_index_request_witness :
  engine_log
    (single_upload_file Demo.UPLOAD_ROOT Demo.VS_ROOT (Demo.engine true)
       "c.txt" [x63] "kb1" (Demo.world_of Demo.one_doc ∅)).2
  = [CallInit (FileList ["/content/kb1/c.txt"]) "/vector_store/kb1"] ∧
  engine_log
    (single_upload_file Demo.UPLOAD_ROOT Demo.VS_ROOT (Demo.engine true)
       "c.txt" [x63] "kb1"
       (Demo.world_of Demo.one_doc {[ "/vector_store/kb1" ]})).2
  = [CallAddFiles "/vector_store/kb1" ["/content/kb1/c.txt"]].
Proof.
  split.
  - assert (same_size_stored (fs (Demo.world_of Demo.one_doc ∅)) "kb1" "c.txt"
              (length [x63]) = false) as Hnew
      by (vm_compute; reflexivity).
    pose proof (single_upload_file_index_request Demo.UPLOAD_ROOT
                  Demo.VS_ROOT (Demo.engine true)
                  (Demo.world_of Demo.one_doc ∅) "kb1" "c.txt" [x63] Hnew)
      as Hlog.
    vm_compute in Hlog. vm_compute. exact Hlog.
  - assert (same_size_stored
              (fs (Demo.world_of Demo.one_doc {[ "/vector_store/kb1" ]}))
              "kb1" "c.txt" (length [x63]) = false) as Hnew
      by (vm_compute; reflexivity).
    pose proof (single_upload_file_index_request Demo.UPLOAD_ROOT
                  Demo.VS_ROOT (Demo.engine true)
                  (Demo.world_of Demo.one_doc {[ "/vector_store/kb1" ]})
                  "kb1" "c.txt" [x63] Hnew)
      as Hlog.
    vm_compute in Hlog. vm_compute. exact Hlog.
Defined.

(** C10, against identical results: where the fixed location is absent,
    the two calls raise errors that name different ids. *)
Lemma chat_not_found_message_names_id :
  chat (Demo.engine true) "kb1" "q" [] (Demo.world_of Demo.one_doc ∅)
  = (Raise (ValueError "Knowledge base kb1 not found"),
     Demo.world_of Demo.one_doc ∅) ∧
  chat (Demo.engine true) "kb2" "q" [] (Demo.world_of Demo.one_doc ∅)
  = (Raise (ValueError "Knowledge base kb2 not found"),
     Demo.world_of Demo.one_doc ∅) ∧
  (chat (Demo.engine true) "kb1" "q" [] (Demo.world_of Demo.one_doc ∅)).1
  ≠ (chat (Demo.engine true) "kb2" "q" [] (Demo.world_of Demo.one_doc ∅)).1.
Proof. split_and!; [by vm_compute..|]. vm_compute. intros H. discriminate H. Qed.

Lemma stream_turn_deltas_concat_witness :
  str_join ""
    (answer_texts
       (stream_turn (Demo.engine true) "/vector_store/kb1" "q"
          Demo.first_session).1)
  = "Answer".
Proof.
  apply (stream_turn_deltas_concat (Demo.engine true) "/vector_store/kb1" "q"
           Demo.first_session
           (Demo.partial "q" [] "Answer" true).1
           (Demo.partial "q" [] "Answer" true).2).
  - vm_compute. reflexivity.
  - vm_compute. reflexivity.
Defined.

Example two_turns_markers :
  start_turns Demo.two_turns = [1; 2] ∧ end_turns Demo.two_turns = [1; 2] ∧
  questions Demo.two_turns = ["q1"; "q2"] ∧
  answer_texts Demo.two_turns = ["A"; "n"; "swer"; "A"; "n"; "swer"].
Proof. split_and!; by vm_compute. Qed.

Lemma stream_chat_turns_witness :
  end_turns (take 8 Demo.two_turns) = seq 1 (length (questions (take 8 Demo.two_turns))) ∧
  ∃ post',
    drop 9 Demo.two_turns
    = Send (StartMarker "q2" (S (length (questions (take 8 Demo.two_turns)))))
      :: post'.
Proof.
  apply (proj2 (proj2 (stream_chat_turns Demo.VS_ROOT (Demo.engine true)
                         ["q1"; "q2"] "kb1"
                         {| uploads := Demo.one_doc;
                            index_dirs := {[ "/vector_store/kb1" ]} |}))
           (take 8 Demo.two_turns) (drop 9 Demo.two_turns) "q2").
  vm_compute. reflexivity.
Defined.

Lemma stream_chat_unknown_kb_witness :
  stream_chat Demo.VS_ROOT (Demo.engine true) ["q1"; "q2"] "nokb"
    {| uploads := Demo.one_doc; index_dirs := {[ "/vector_store/kb1" ]} |}
  = [Accept; Send (ErrorFrame "Knowledge base nokb not found"); Close].
Proof.
  apply (stream_chat_unknown_kb Demo.VS_ROOT (Demo.engine true)
           ["q1"; "q2"] "nokb"
           {| uploads := Demo.one_doc;
              index_dirs := {[ "/vector_store/kb1" ]} |}).
  decide_closed.
Defined.

(** The handshake is acknowledged with its envelope although its task
    raises at once: the envelope has no event to look into. *)
Example handshake_task_raises :
  serve_feishu_event (Demo.engine true) Demo.loads_demo Demo.str_demo
    Demo.net_up "id" "secret" Demo.handshake
    (Demo.world_of Demo.one_doc {[ FIXED_VS_PATH ]})
  = (Return Demo.handshake,
     ([Raise (TypeError "'NoneType' object is not subscriptable")],
      Demo.world_of Demo.one_doc {[ FIXED_VS_PATH ]})).
Proof. by vm_compute. Qed.

(** A message event is acknowledged alike whether the reply gets through
    or the platform cannot be reached. *)
Example message_event_ack :
  (serve_feishu_event (Demo.engine true) Demo.loads_demo Demo.str_demo
     Demo.net_up "id" "secret" Demo.message_event
     (Demo.world_of ∅ {[ FIXED_VS_PATH ]})).1 = Return Demo.message_event ∧
  (serve_feishu_event (Demo.engine true) Demo.loads_demo Demo.str_demo
     Demo.net_up "id" "secret" Demo.message_event
     (Demo.world_of ∅ {[ FIXED_VS_PATH ]})).2.1 = [Return tt] ∧
  (serve_feishu_event (Demo.engine true) Demo.loads_demo Demo.str_demo
     Demo.net_down "id" "secret" Demo.message_event
     (Demo.world_of ∅ {[ FIXED_VS_PATH ]})).1 = Return Demo.message_event ∧
  (serve_feishu_event (Demo.engine true) Demo.loads_demo Demo.str_demo
     Demo.net_down "id" "secret" Demo.message_event
     (Demo.world_of ∅ {[ FIXED_VS_PATH ]})).2.1 = [Raise ConnectionError].
Proof. split_and!; by vm_compute. Qed.

(** ** Further properties of the handlers *)

(** *** Document store *)

Section DocumentStoreMore.

Variables UPLOAD_ROOT_PATH VS_ROOT_PATH : string.
Variable local_doc_qa : LocalDocQA.

Local Abbreviation delete_docs' :=
  (delete_docs UPLOAD_ROOT_PATH VS_ROOT_PATH local_doc_qa).
Local Abbreviation single_upload_file' :=
  (single_upload_file UPLOAD_ROOT_PATH VS_ROOT_PATH local_doc_qa).
Local Abbreviation upload_file' :=
  (upload_file UPLOAD_ROOT_PATH VS_ROOT_PATH local_doc_qa).
Local Abbreviation upload_file_loop' := (upload_file_loop UPLOAD_ROOT_PATH).
Local Abbreviation file_path' kb name :=
  (os_path_join (get_folder_path UPLOAD_ROOT_PATH kb) name).
Local Abbreviation vs_path' kb := (get_vs_path VS_ROOT_PATH kb).

Lemma truthy_nonempty (s : string) : s ≠ "" → truthy (Some s) = Some s.
Proof. by destruct s. Qed.

(** [os.listdir] gives each name of the directory once. *)
Lemma os_listdir_spec {V} (dir : gmap string V) :
  NoDup (os_listdir dir) ∧ ∀ name, name ∈ os_listdir dir ↔ is_Some (dir !! name).
Proof.
  unfold os_listdir. split; [apply NoDup_fst_map_to_list|].
  intros name. rewrite list_elem_of_fmap. split.
  - intros [[n v] [-> Hin]]. apply elem_of_map_to_list in Hin. eauto.
  - intros [v Hv]. exists (name, v). split; [done|].
    by apply elem_of_map_to_list.
Qed.



(** Whatever branch a single-file upload takes, the name is stored
    afterwards, with as many bytes as were uploaded. *)
Lemma single_upload_file_stored (w : world) (kb name : string)
    (bytes : list byte) :
  ∃ content,
    stored_file (fs (single_upload_file' name bytes kb w).2) kb name
    = Some content ∧
    length content = length bytes.
Proof.
  destruct (same_size_stored (fs w) kb name (length bytes)) eqn:Hsame.
  - rewrite (single_upload_file_duplicate UPLOAD_ROOT_PATH VS_ROOT_PATH local_doc_qa w kb name bytes Hsame). simpl.
    unfold same_size_stored in Hsame.
    destruct (stored_file (fs w) kb name) as [old|]; [|done].
    exists old. split; [done|]. by apply Nat.eqb_eq.
  - destruct (single_upload_file_writes UPLOAD_ROOT_PATH VS_ROOT_PATH local_doc_qa w kb name bytes Hsame)
      as (r & w' & -> & Hup & _).
    exists bytes. split; [|done]. simpl.
    unfold stored_file. rewrite Hup. simpl.
    rewrite lookup_insert_eq. simpl. apply lookup_insert_eq.
Qed.


(** X4.  Uploading the same file a second time answers 200 with the
    already-exists message and changes nothing, also when the first upload
    was answered with a failure. *)
Theorem single_upload_file_twice (w : world) (kb name : string)
    (bytes : list byte) :
  single_upload_file' name bytes kb (single_upload_file' name bytes kb w).2
  = (Return {| code := 200; msg := "文件 " +:+ name +:+ " 已存在。" |},
     (single_upload_file' name bytes kb w).2).
Proof.
  destruct (single_upload_file_stored w kb name bytes) as (content & Hst & Hlen).
  apply single_upload_file_duplicate.
  unfold same_size_stored. rewrite Hst. by apply Nat.eqb_eq.
Qed.

(** X5.  The duplicate test looks at the name and the size only: a file
    of the stored size is skipped whatever its bytes, the stored content
    stays, and the answer is the already-exists message. *)
Theorem single_upload_file_size_only_dedup (w : world) (kb name : string)
    (old bytes : list byte) :
  stored_file (fs w) kb name = Some old →
  length old = length bytes →
  single_upload_file' name bytes kb w
  = (Return {| code := 200; msg := "文件 " +:+ name +:+ " 已存在。" |}, w).
Proof.
  intros Hst Hlen. apply single_upload_file_duplicate.
  unfold same_size_stored. rewrite Hst. by apply Nat.eqb_eq.
Qed.


(** X8.  A batch upload of a file whose name is stored with another size
    appends: the content afterwards is the old bytes followed by the
    uploaded ones. *)
Theorem upload_file_same_name_appends (w : world) (kb name : string)
    (old bytes : list byte) :
  stored_file (fs w) kb name = Some old →
  length old ≠ length bytes →
  stored_file (fs (upload_file' [(name, bytes)] kb w).2) kb name
  = Some (old ++ bytes).
Proof.
  intros Hst Hlen. unfold upload_file. simpl. unfold_m.
  unfold same_size_stored, write_file, call_init. unfold stored_file in *.
  destruct (uploads (fs w) !! kb) as [folder|] eqn:Hkb; [|done].
  simpl in *. rewrite Hkb. simpl. rewrite Hst.
  rewrite (proj2 (Nat.eqb_neq _ _) Hlen). rewrite Hkb. simpl.
  destruct (init_knowledge_vector_store _ _ _ _) as [[v loaded] dirs].
  simpl. destruct (negb _); simpl; rewrite lookup_insert_eq; simpl;
    by rewrite lookup_insert_eq, Hst.
Qed.

(** On a batch of names that are all new and distinct, the loop writes
    every file and hands on their paths in batch order. *)
Lemma upload_file_loop_all_fresh (kb : string)
    (files : list (string * list byte)) :
  ∀ (filelist : list string) (w : world),
    is_Some (uploads (fs w) !! kb) →
    NoDup files.*1 →
    Forall (λ f, stored_file (fs w) kb f.1 = None) files →
    ∃ w',
      upload_file_loop' kb files filelist w
      = (Return (filelist ++ ((λ f, file_path' kb f.1) <$> files)), w') ∧
      engine_log w' = engine_log w ∧
      index_dirs (fs w') = index_dirs (fs w).
Proof.
  induction files as [|[name bytes] rest IH]; intros filelist w Hkb Hnd Hfresh.
  - simpl. rewrite app_nil_r. unfold ret. eauto.
  - simpl in Hnd. apply NoDup_cons in Hnd as [Hfirst Hnd].
    apply Forall_cons in Hfresh as [Hnew Hfresh]. simpl in Hnew.
    simpl. unfold_m. unfold same_size_stored. rewrite Hnew.
    unfold write_file. destruct Hkb as [folder Hkb]. rewrite Hkb.
    match goal with
    | |- context [upload_file_loop' kb rest ?fl' ?w1] =>
        destruct (IH fl' w1) as (w' & -> & Hlog & Hidx)
    end.
    + simpl. rewrite lookup_insert_eq. eauto.
    + done.
    + rewrite Forall_forall in Hfresh |- *. intros [n b] Hin.
      specialize (Hfresh _ Hin). simpl in *.
      assert (n ≠ name) as Hne.
      { intros ->. apply Hfirst. apply list_elem_of_fmap. by exists (name, b). }
      unfold stored_file in *. simpl. rewrite lookup_insert_eq. simpl.
      rewrite lookup_insert_ne by done. by rewrite Hkb in Hfresh.
    + exists w'. split_and!; [|done|done].
      by rewrite <- app_assoc.
Qed.

(** X9.  A batch of new, distinct names sends the engine one request, a
    build over the paths of all its files in batch order, whether or not
    the knowledge base has an index: the batch never extends one. *)
Theorem upload_file_fresh_batch_request (w : world) (kb : string)
    (files : list (string * list byte)) :
  files ≠ [] →
  NoDup files.*1 →
  Forall (λ f, stored_file (fs w) kb f.1 = None) files →
  engine_log (upload_file' files kb w).2
  = engine_log w ++
    [CallInit (FileList ((λ f, file_path' kb f.1) <$> files)) (vs_path' kb)].
Proof.
  intros Hne Hnd Hfresh. unfold upload_file. unfold_m.
  assert (∀ w1, is_Some (uploads (fs w1) !! kb) →
                Forall (λ f, stored_file (fs w1) kb f.1 = None) files →
                ∃ w', upload_file_loop' kb files [] w1
                      = (Return ((λ f, file_path' kb f.1) <$> files), w') ∧
                      engine_log w' = engine_log w1) as Hloop.
  { intros w1 Hkb1 Hfresh1.
    destruct (upload_file_loop_all_fresh kb files [] w1 Hkb1 Hnd Hfresh1)
      as (w' & Hrun & Hlog & _). eauto. }
  destruct (uploads (fs w) !! kb) as [folder|] eqn:Hkb; simpl.
  - destruct (Hloop w) as (w' & -> & Hlog); [by rewrite Hkb|done|].
    destruct files as [|f rest]; [done|]. simpl.
    unfold call_init.
    destruct (init_knowledge_vector_store _ _ _ _) as [[v loaded] dirs].
    simpl. destruct (negb _); simpl; by rewrite Hlog.
  - match goal with
    | |- context [upload_file_loop' kb files [] ?w1] =>
        destruct (Hloop w1) as (w' & -> & Hlog)
    end.
    { simpl. rewrite lookup_insert_eq. eauto. }
    { apply Forall_forall. intros f _. unfold stored_file. simpl.
      rewrite lookup_insert_eq. simpl. apply lookup_empty. }
    destruct files as [|f rest]; [done|]. simpl.
    unfold call_init.
    destruct (init_knowledge_vector_store _ _ _ _) as [[v loaded] dirs].
    simpl. destruct (negb _); simpl; by rewrite Hlog.
Qed.

(** X10.  Without a document name, and an empty name is none, [delete_docs]
    removes the folder of the knowledge base and answers with the default
    response; [list_docs] then answers not-found. *)
Theorem delete_docs_whole_kb (w : world) (kb : string) (doc : option string) :
  doc = None ∨ doc = Some "" →
  kb ≠ "" →
  is_Some (uploads (fs w) !! kb) →
  delete_docs' kb doc w
  = (Return (Base BaseResponse_default),
     set_fs (set_uploads (delete kb)) w) ∧
  (list_docs (Some kb) (delete_docs' kb doc w).2).1
  = Return (not_found_dict ("Knowledge base " +:+ kb)).
Proof.
  intros Hdoc Hkb Hfolder.
  assert (delete_docs' kb doc w
          = (Return (Base BaseResponse_default),
             set_fs (set_uploads (delete kb)) w)) as Hrun.
  { unfold delete_docs. unfold_m.
    rewrite bool_decide_eq_true_2 by done. simpl.
    by destruct Hdoc as [-> | ->]. }
  split; [done|]. rewrite Hrun. simpl.
  unfold list_docs. rewrite truthy_nonempty by done. unfold_m. simpl.
  by rewrite lookup_delete_eq.
Qed.

(** X11.  [delete_docs] on a knowledge base that does not exist, or on a
    document that its folder does not hold, changes nothing and answers
    with a dict of code 1 naming what is missing. *)
Theorem delete_docs_missing (w : world) (kb : string) (doc : option string) :
  (uploads (fs w) !! kb = None →
   delete_docs' kb doc w
   = (Return (not_found_dict ("Knowledge base " +:+ kb)), w)) ∧
  (∀ name,
     doc = Some name → name ≠ "" →
     is_Some (uploads (fs w) !! kb) →
     stored_file (fs w) kb name = None →
     delete_docs' kb doc w
     = (Return (not_found_dict ("document " +:+ name)), w)).
Proof.
  split.
  - intros Hkb. unfold delete_docs. unfold_m.
    rewrite bool_decide_eq_false_2; [done|]. rewrite Hkb. by intros [? ?].
  - intros name -> Hname Hkb Hst. destruct name as [|a n]; [done|].
    unfold delete_docs. unfold_m.
    rewrite bool_decide_eq_true_2 by done. simpl.
    rewrite bool_decide_eq_false_2; [done|]. rewrite Hst. by intros [? ?].
Qed.


End DocumentStoreMore.

(** *** Paths and escaping *)

Section Paths.

Lemma str_mem_app (c : ascii) (a b : string) :
  str_mem c (a +:+ b) = str_mem c a || str_mem c b.
Proof.
  induction a as [|x a IH]; [done|]. rewrite str_app_cons. simpl.
  rewrite IH. by rewrite orb_assoc.
Qed.

Lemma basename_aux_no_slash (b : string) :
  ∀ acc, str_mem SLASH b = false → basename_aux acc b = acc +:+ b.
Proof.
  induction b as [|x b IH]; intros acc Hb; simpl.
  - by rewrite str_app_empty_r.
  - simpl in Hb. apply orb_false_iff in Hb as [Hx Hb].
    rewrite Hx. rewrite IH by done. by rewrite str_app_assoc.
Qed.

Lemma basename_aux_after_slash (p b : string) :
  ∀ acc, basename_aux acc (p +:+ String SLASH b) = basename_aux "" b.
Proof.
  induction p as [|x p IH]; intros acc.
  - change (basename_aux acc (String SLASH b) = basename_aux "" b).
    reflexivity.
  - rewrite str_app_cons. simpl. destruct (bool_decide (x = SLASH)); apply IH.
Qed.

Lemma basename_aux_after_dir (a b : string) :
  ∀ acc, ends_with_slash a = true →
         basename_aux acc (a +:+ b) = basename_aux "" b.
Proof.
  induction a as [|x a IH]; intros acc Ha; [done|].
  rewrite str_app_cons. simpl. destruct a as [|y a].
  - simpl in Ha. by rewrite Ha.
  - destruct (bool_decide (x = SLASH)); by apply IH.
Qed.

Variable UPLOAD_ROOT_PATH : string.

(** X15.  The name read back from a document path by
    [os.path.split(...)[-1]] is the file name the path was joined from,
    for a name without slash. *)
Theorem basename_of_file_path (kb name : string) :
  str_mem SLASH name = false →
  os_path_basename
    (os_path_join (get_folder_path UPLOAD_ROOT_PATH kb) name) = name.
Proof.
  intros Hname. unfold os_path_basename, os_path_join.
  assert (starts_with_slash name = false) as ->.
  { destruct name as [|x name]; [done|]. simpl in *.
    by apply orb_false_iff in Hname as [-> _]. }
  set (dir := get_folder_path UPLOAD_ROOT_PATH kb).
  destruct (bool_decide (dir = "")) eqn:Hdir; simpl.
  - apply bool_decide_eq_true_1 in Hdir. rewrite Hdir.
    by apply (basename_aux_no_slash name "").
  - destruct (ends_with_slash dir) eqn:Hend.
    + rewrite basename_aux_after_dir by done.
      by apply (basename_aux_no_slash name "").
    + change (dir +:+ "/" +:+ name) with (dir +:+ String SLASH name).
      rewrite basename_aux_after_slash.
      by apply (basename_aux_no_slash name "").
Qed.

(** X16.  The text put into the reply holds no line feed after
    [replace], and a text without line feed goes in unchanged. *)
Theorem escape_newlines_single_line (s : string) :
  str_mem "010"%char (escape_newlines s) = false ∧
  (str_mem "010"%char s = false → escape_newlines s = s).
Proof.
  induction s as [|x s [IH1 IH2]]; [done|]. simpl.
  destruct (bool_decide (x = "010"%char)) eqn:Hx; simpl.
  - split; [|done]. rewrite str_mem_app. by rewrite IH1.
  - rewrite Hx. simpl. split; [done|]. intros Hs. by rewrite IH2.
Qed.

End Paths.

(** *** Single-shot chat *)

Section ChatMore.

(** X17.  [chat] uses the last pair the engine yields and nothing of the
    earlier ones: two engines that end alike give the same outcome.  The
    file system is left as it was. *)
Theorem chat_depends_on_last_partial (qa qa' : LocalDocQA)
    (kb q : string) (h : list (list string)) (w : world) :
  last (get_knowledge_based_answer qa q FIXED_VS_PATH h)
  = last (get_knowledge_based_answer qa' q FIXED_VS_PATH h) →
  chat qa kb q h w = chat qa' kb q h w ∧
  fs (chat qa kb q h w).2 = fs w.
Proof.
  intros Hlast. unfold chat. unfold_m. unfold call_answer.
  destruct (bool_decide _); simpl; [|done].
  rewrite <- Hlast. split; [done|].
  destruct (last _) as [[resp h']|]; simpl; [|done].
  by destruct (resp_getitem_source_documents resp).
Qed.

(** X18.  With the index in place, [chat] raises [UnboundLocalError] when
    the engine yields nothing, and [KeyError] when the last partial has no
    source documents; the engine has been called in both cases. *)
Theorem chat_needs_final_partial_with_sources (qa : LocalDocQA)
    (kb q : string) (h : list (list string)) (w : world) :
  FIXED_VS_PATH ∈ index_dirs (fs w) →
  (get_knowledge_based_answer qa q FIXED_VS_PATH h = [] →
   chat qa kb q h w
   = (Raise (UnboundLocalError "resp"),
      log_call (CallAnswer q FIXED_VS_PATH h) w)) ∧
  (∀ r h', last (get_knowledge_based_answer qa q FIXED_VS_PATH h) = Some (r, h') →
           resp_source_documents r = None →
           chat qa kb q h w
           = (Raise (KeyError "source_documents"),
              log_call (CallAnswer q FIXED_VS_PATH h) w)).
Proof.
  intros Hidx. unfold chat. unfold_m. unfold call_answer.
  rewrite bool_decide_eq_true_2 by done. simpl. split.
  - by intros ->.
  - intros r h' -> Hdocs. simpl.
    unfold resp_getitem_source_documents. by rewrite Hdocs.
Qed.

End ChatMore.

(** *** Streaming sessions *)

Section StreamingMore.

Variable VS_ROOT_PATH : string.
Variable local_doc_qa : LocalDocQA.

Local Abbreviation stream_turn' := (stream_turn local_doc_qa).
Local Abbreviation stream_loop' := (stream_loop local_doc_qa).
Local Abbreviation stream_chat' := (stream_chat VS_ROOT_PATH local_doc_qa).
Local Abbreviation answer' := (get_knowledge_based_answer local_doc_qa).

Lemma send_partials_plain (n : nat)
    (partials : list (Resp * list (list string))) :
  engine_calls (send_partials n partials) = [] ∧
  questions (send_partials n partials) = [].
Proof.
  revert n. induction partials as [|[r h] ps IH]; intros n; [done|].
  simpl. apply IH.
Qed.

(** A turn takes in its question and puts it to the engine once, with the
    session's index location and the history so far. *)
Lemma stream_turn_asks_once (vs_path q : string) (st : session) :
  questions (stream_turn' vs_path q st).1 = [q] ∧
  engine_calls (stream_turn' vs_path q st).1
  = [CallAnswer q vs_path (s_history st)].
Proof.
  unfold stream_turn.
  set (partials := get_knowledge_based_answer _ _ _ _).
  destruct (send_partials_plain 0 partials) as [He Hq].
  destruct (from_option _ _ _) as [r|]; [destruct (resp_source_documents r)|];
    simpl; unfold questions, engine_calls in *;
    rewrite !omap_app, He, Hq; done.
Qed.

Lemma stream_loop_asks (vs_path : string) (inbound : list string) :
  ∀ st : session,
    Forall2 (λ c q, ∃ h, c = CallAnswer q vs_path h)
      (engine_calls (stream_loop' vs_path inbound st))
      (questions (stream_loop' vs_path inbound st)).
Proof.
  induction inbound as [|q rest IH]; intros st; [by constructor|].
  simpl. destruct (stream_turn_asks_once vs_path q st) as [Hq He].
  destruct (stream_turn' vs_path q st) as [events next]. simpl in *.
  unfold questions, engine_calls in *. rewrite !omap_app, Hq, He. simpl.
  constructor; [eauto|].
  destruct next as [st'|]; [apply IH | constructor].
Qed.

Lemma stream_loop_questions (vs_path : string) (inbound : list string) :
  ∀ st : session,
    questions (stream_loop' vs_path inbound st) `prefix_of` inbound.
Proof.
  induction inbound as [|q rest IH]; intros st; [done|].
  simpl. destruct (stream_turn_asks_once vs_path q st) as [Hq _].
  destruct (stream_turn' vs_path q st) as [events next]. simpl in *.
  unfold questions in *. rewrite omap_app, Hq. simpl.
  apply prefix_cons.
  destruct next as [st'|]; [apply IH | apply prefix_nil].
Qed.

(** X19.  In a streaming session the engine is called once per question
    taken in, with that question and the session's own index location, in
    order, and for nothing else; the questions taken in are an initial
    part of what the client sent. *)
Theorem stream_chat_asks_received_questions (inbound : list string)
    (kb : string) (s : filesystem) :
  Forall2 (λ c q, ∃ h, c = CallAnswer q (os_path_join VS_ROOT_PATH kb) h)
    (engine_calls (stream_chat' inbound kb s))
    (questions (stream_chat' inbound kb s)) ∧
  questions (stream_chat' inbound kb s) `prefix_of` inbound.
Proof.
  unfold stream_chat. destruct (negb _); simpl.
  - split; [constructor | apply prefix_nil].
  - split; [apply stream_loop_asks | apply stream_loop_questions].
Qed.

(** With an engine that always answers, a turn completes. *)
Lemma stream_turn_completes (vs_path q : string) (st : session) :
  always_answers local_doc_qa →
  ∃ st', (stream_turn' vs_path q st).2 = Some st'.
Proof.
  intros Hqa. destruct (Hqa q vs_path (s_history st)) as (r & h' & docs & Hl & Hd).
  unfold stream_turn. rewrite Hl. simpl. rewrite Hd. eauto.
Qed.

Lemma stream_loop_answers_all (vs_path : string) (inbound : list string) :
  always_answers local_doc_qa →
  ∀ st : session,
    questions (stream_loop' vs_path inbound st) = inbound ∧
    start_turns (stream_loop' vs_path inbound st)
    = seq (s_turn st) (length inbound) ∧
    end_turns (stream_loop' vs_path inbound st)
    = seq (s_turn st) (length inbound) ∧
    last (stream_loop' vs_path inbound st) = Some (Raised WebSocketDisconnect).
Proof.
  intros Hqa. induction inbound as [|q rest IH]; intros st; [done|].
  simpl.
  destruct (stream_turn_shape local_doc_qa vs_path q st)
    as (body & Hev & Hq & Hs & Hnext).
  destruct (stream_turn_completes vs_path q st Hqa) as [st' Hst'].
  destruct (stream_turn' vs_path q st) as [events next]. simpl in *.
  subst events next. destruct Hnext as [He Hturn].
  destruct (IH st') as (IHq & IHs & IHe & IHl).
  unfold questions, start_turns, end_turns in *. simpl.
  rewrite !omap_app, Hq, Hs, He, IHq, IHs, IHe, Hturn. simpl.
  split_and!; [done..|].
  rewrite !last_cons, last_app, IHl. done.
Qed.

(** X20.  With an index and an engine that always yields a last partial
    with source documents, every question sent is taken in and gets its
    start and end marker, numbered 1 to the number of questions, and the
    session ends only when the client is gone. *)
Theorem stream_chat_answers_all (inbound : list string) (kb : string)
    (s : filesystem) :
  always_answers local_doc_qa →
  os_path_join VS_ROOT_PATH kb ∈ index_dirs s →
  questions (stream_chat' inbound kb s) = inbound ∧
  start_turns (stream_chat' inbound kb s) = seq 1 (length inbound) ∧
  end_turns (stream_chat' inbound kb s) = seq 1 (length inbound) ∧
  last (stream_chat' inbound kb s) = Some (Raised WebSocketDisconnect).
Proof.
  intros Hqa Hidx. unfold stream_chat.
  rewrite bool_decide_eq_true_2 by done. simpl.
  destruct (stream_loop_answers_all (os_path_join VS_ROOT_PATH kb) inbound Hqa
              {| s_history := []; s_turn := 1; s_resp := None |})
    as (Hq & Hs & He & Hl).
  split_and!; [done..|].
  rewrite last_cons, Hl. done.
Qed.

(** X21.  When the engine yields nothing for the first question, the
    session raises [UnboundLocalError] after the start marker: no end
    marker is sent and no further question is taken in. *)
Theorem stream_chat_first_answer_empty (q : string) (rest : list string)
    (kb : string) (s : filesystem) :
  os_path_join VS_ROOT_PATH kb ∈ index_dirs s →
  answer' q (os_path_join VS_ROOT_PATH kb) [] = [] →
  stream_chat' (q :: rest) kb s
  = [Accept; Receive q; Send (StartMarker q 1);
     Engine (CallAnswer q (os_path_join VS_ROOT_PATH kb) []);
     Raised (UnboundLocalError "resp")].
Proof.
  intros Hidx Hempty. unfold stream_chat.
  rewrite bool_decide_eq_true_2 by done. simpl.
  unfold stream_turn. simpl. by rewrite Hempty.
Qed.

(** X22.  When the engine yields nothing in a later turn, [resp] is still
    bound to the last partial of an earlier turn: the turn sends no text,
    its end marker carries the earlier sources, and the history stays. *)
Theorem stream_turn_stale_sources (vs_path q : string) (st : session)
    (r : Resp) (docs : list Document) :
  answer' q vs_path (s_history st) = [] →
  s_resp st = Some r →
  resp_source_documents r = Some docs →
  stream_turn' vs_path q st
  = ([Receive q; Send (StartMarker q (s_turn st));
      Engine (CallAnswer q vs_path (s_history st));
      Send (EndMarker q (s_turn st) (render_sources docs))],
     Some {| s_history := s_history st; s_turn := s_turn st + 1;
             s_resp := Some r |}).
Proof.
  intros Hempty Hr Hdocs. unfold stream_turn.
  rewrite Hempty, Hr. simpl. by rewrite Hdocs.
Qed.

Lemma str_from_length (n : nat) (s : string) :
  String.length (str_from n s) = String.length s - n.
Proof.
  revert s. induction n as [|n IH]; intros s; simpl; [lia|].
  destruct s as [|x s]; simpl; [done|]. apply IH.
Qed.

Lemma str_app_length (a b : string) :
  String.length (a +:+ b) = String.length a + String.length b.
Proof.
  induction a as [|x a IH]; [done|]. rewrite str_app_cons. simpl. by rewrite IH.
Qed.

Lemma answer_texts_cons_text (t : string) (tr : list ws_event) :
  answer_texts (Send (AnswerText t) :: tr) = t :: answer_texts tr.
Proof. reflexivity. Qed.

Lemma send_partials_count (n : nat)
    (partials : list (Resp * list (list string))) :
  length (answer_texts (send_partials n partials)) = length partials.
Proof.
  revert n. induction partials as [|[r h] ps IH]; intros n; [done|].
  simpl. by rewrite IH.
Qed.

Lemma send_partials_total_length
    (partials : list (Resp * list (list string))) :
  ∀ prev : string,
    lengths_grow (prev :: (result ∘ fst <$> partials)) = true →
    String.length prev
    + String.length
        (str_join "" (answer_texts (send_partials (String.length prev) partials)))
    = String.length (final_text prev partials).
Proof.
  induction partials as [|[r h] ps IH]; intros prev Hg.
  - unfold final_text. simpl. lia.
  - simpl in Hg. apply andb_true_iff in Hg as [Hle Hg].
    apply Nat.leb_le in Hle.
    assert (final_text prev ((r, h) :: ps) = final_text (result r) ps) as ->.
    { unfold final_text. rewrite last_cons. by destruct (last ps). }
    rewrite <- (IH (result r) Hg). simpl send_partials.
    rewrite answer_texts_cons_text.
    rewrite str_join_empty_cons, str_app_length, str_from_length. lia.
Qed.

(** X23.  A turn sends one text frame per partial.  The slices are cut by
    length alone: when no partial is shorter than the one before, the
    frames add up to as many characters as the last partial has, whether
    or not the partials extend one another. *)
Theorem stream_turn_sent_length (vs_path q : string) (st : session)
    (r : Resp) (h : list (list string)) :
  length (answer_texts (stream_turn' vs_path q st).1)
  = length (answer' q vs_path (s_history st)) ∧
  (lengths_grow (result ∘ fst <$> answer' q vs_path (s_history st)) = true →
   last (answer' q vs_path (s_history st)) = Some (r, h) →
   String.length (str_join "" (answer_texts (stream_turn' vs_path q st).1))
   = String.length (result r)).
Proof.
  rewrite answer_texts_stream_turn. split; [apply send_partials_count|].
  intros Hg Hlast.
  pose proof (send_partials_total_length (answer' q vs_path (s_history st)) "")
    as Hlen.
  unfold final_text in Hlen. rewrite Hlast in Hlen. simpl in Hlen.
  apply Hlen. destruct (answer' _ _ _) as [|[r0 h0] ps]; [done|].
  simpl in *. exact Hg.
Qed.

End StreamingMore.

(** *** The webhook task *)

Section WebhookMore.

Variable local_doc_qa : LocalDocQA.
Variable json_loads : string → option json.
Variable py_str : json → string.
Variable requests_post : http_request → outcome string.
Variables FEISHU_APP_ID FEISHU_APP_SECRET : string.

Local Abbreviation feishu_event_async' :=
  (feishu_event_async local_doc_qa json_loads py_str requests_post
     FEISHU_APP_ID FEISHU_APP_SECRET).
Local Abbreviation token_request' :=
  (token_request FEISHU_APP_ID FEISHU_APP_SECRET).

Ltac step_task :=
  repeat (simpl;
          match goal with
          | |- context [match ?x with _ => _ end] =>
              lazymatch x with
              | context [match _ with _ => _ end] => fail
              | _ => destruct x eqn:?
              end
          end).

(** X25.  The background task touches neither files nor the task queue,
    calls the engine at most once, on the fixed index location and with an
    empty history, and posts at most twice: the token request first, then
    one reply. *)
Theorem feishu_event_async_effects (fei_shu : FeiShu) (w : world) :
  fs (feishu_event_async' fei_shu w).2 = fs w ∧
  pending (feishu_event_async' fei_shu w).2 = pending w ∧
  (engine_log (feishu_event_async' fei_shu w).2 = engine_log w ∨
   ∃ q, engine_log (feishu_event_async' fei_shu w).2
        = engine_log w ++ [CallAnswer q FIXED_VS_PATH []]) ∧
  (posted (feishu_event_async' fei_shu w).2 = posted w ∨
   posted (feishu_event_async' fei_shu w).2 = posted w ++ [token_request'] ∨
   ∃ reply, posted (feishu_event_async' fei_shu w).2
            = posted w ++ [token_request'; reply]).
Proof.
  unfold feishu_event_async, feishu_auth, post, call_answer. unfold_m.
  step_task; split_and!; try done; eauto.
  all: try (right; right; eexists; simpl; by rewrite <- app_assoc).
Qed.


(** X27.  Without the fixed index location the background task always
    raises and does nothing: no engine call, no request. *)
Theorem feishu_event_async_no_index (fei_shu : FeiShu) (w : world) :
  FIXED_VS_PATH ∉ index_dirs (fs w) →
  ∃ e, feishu_event_async' fei_shu w = (Raise e, w).
Proof.
  intros Hno.
  unfold feishu_event_async. unfold_m.
  rewrite bool_decide_eq_false_2 by done.
  step_task; eauto.
Qed.

(** X28.  For an envelope without event, as the handshake is, the
    background task raises [TypeError] at once and does nothing. *)
Theorem feishu_event_async_handshake (fei_shu : FeiShu) (w : world) :
  event fei_shu = None →
  feishu_event_async' fei_shu w
  = (Raise (TypeError "'NoneType' object is not subscriptable"), w).
Proof.
  intros Hev. unfold feishu_event_async, event_getitem. unfold_m.
  by rewrite Hev.
Qed.

End WebhookMore.

(** *** The further properties on the sample data *)



Lemma single_upload_file_size_only_dedup_witness :
  single_upload_file Demo.UPLOAD_ROOT Demo.VS_ROOT (Demo.engine true)
    "a.txt" [x63] "kb1" Samples.plain
  = (Return {| code := 200; msg := "文件 " +:+ "a.txt" +:+ " 已存在。" |},
     Samples.plain).
Proof.
  apply (single_upload_file_size_only_dedup Demo.UPLOAD_ROOT Demo.VS_ROOT
           (Demo.engine true) Samples.plain "kb1" "a.txt" [x61] [x63]).
  - vm_compute. reflexivity.
  - reflexivity.
Defined.


Lemma upload_file_all_duplicates_witness :
  upload_file Demo.UPLOAD_ROOT Demo.VS_ROOT (Demo.engine true)
    [("a.txt", [x63]); ("a.txt", [x64])] "kb1" Samples.plain
  = (Return {| code := 500; msg := "文件未成功加载，请重新上传文件" |},
     Samples.plain).
Proof.
  apply (upload_file_all_duplicates Demo.UPLOAD_ROOT Demo.VS_ROOT
           (Demo.engine true) Samples.plain "kb1"
           [("a.txt", [x63]); ("a.txt", [x64])]).
  - discriminate.
  - repeat constructor.
Defined.

Lemma upload_file_same_name_appends_witness :
  stored_file
    (fs (upload_file Demo.UPLOAD_ROOT Demo.VS_ROOT (Demo.engine true)
           [("a.txt", [x63; x64])] "kb1" Samples.plain).2) "kb1" "a.txt"
  = Some ([x61] ++ [x63; x64]).
Proof.
  apply (upload_file_same_name_appends Demo.UPLOAD_ROOT Demo.VS_ROOT
           (Demo.engine true) Samples.plain "kb1" "a.txt" [x61] [x63; x64]).
  - vm_compute. reflexivity.
  - simpl. lia.
Defined.

Lemma upload_file_fresh_batch_request_witness :
  engine_log
    (upload_file Demo.UPLOAD_ROOT Demo.VS_ROOT (Demo.engine true)
       [("c.txt", [x63]); ("d.txt", [x64])] "kb1"
       (Demo.world_of Demo.one_doc {[ "/vector_store/kb1" ]})).2
  = engine_log (Demo.world_of Demo.one_doc {[ "/vector_store/kb1" ]}) ++
    [CallInit
       (FileList
          ((λ f : string * list byte,
              os_path_join (get_folder_path Demo.UPLOAD_ROOT "kb1") f.1)
             <$> [("c.txt", [x63]); ("d.txt", [x64])]))
       (get_vs_path Demo.VS_ROOT "kb1")].
Proof.
  apply (upload_file_fresh_batch_request Demo.UPLOAD_ROOT Demo.VS_ROOT
           (Demo.engine true)
           (Demo.world_of Demo.one_doc {[ "/vector_store/kb1" ]}) "kb1"
           [("c.txt", [x63]); ("d.txt", [x64])]).
  - discriminate.
  - decide_closed.
  - repeat constructor.
Defined.

Lemma delete_docs_whole_kb_witness :
  delete_docs Demo.UPLOAD_ROOT Demo.VS_ROOT (Demo.engine true)
    "kb1" (Some "") Samples.plain
  = (Return (Base BaseResponse_default),
     set_fs (set_uploads (delete "kb1")) Samples.plain) ∧
  (list_docs (Some "kb1")
     (delete_docs Demo.UPLOAD_ROOT Demo.VS_ROOT (Demo.engine true)
        "kb1" (Some "") Samples.plain).2).1
  = Return (not_found_dict ("Knowledge base " +:+ "kb1")).
Proof.
  apply (delete_docs_whole_kb Demo.UPLOAD_ROOT Demo.VS_ROOT
           (Demo.engine true) Samples.plain "kb1" (Some "")).
  - right. reflexivity.
  - discriminate.
  - vm_compute. eexists. reflexivity.
Defined.

Lemma delete_docs_missing_witness :
  delete_docs Demo.UPLOAD_ROOT Demo.VS_ROOT (Demo.engine true)
    "nokb" (Some "a.txt") Samples.plain
  = (Return (not_found_dict ("Knowledge base " +:+ "nokb")), Samples.plain) ∧
  delete_docs Demo.UPLOAD_ROOT Demo.VS_ROOT (Demo.engine true)
    "kb1" (Some "z.txt") Samples.plain
  = (Return (not_found_dict ("document " +:+ "z.txt")), Samples.plain).
Proof.
  split.
  - apply (proj1 (delete_docs_missing Demo.UPLOAD_ROOT Demo.VS_ROOT
                    (Demo.engine true) Samples.plain "nokb" (Some "a.txt"))).
    vm_compute. reflexivity.
  - apply (proj2 (delete_docs_missing Demo.UPLOAD_ROOT Demo.VS_ROOT
                    (Demo.engine true) Samples.plain "kb1" (Some "z.txt"))
             "z.txt").
    + reflexivity.
    + discriminate.
    + vm_compute. eexists. reflexivity.
    + vm_compute. reflexivity.
Defined.


Lemma delete_docs_existing_doc_witness :
  delete_docs Demo.UPLOAD_ROOT Demo.VS_ROOT (Demo.engine true)
    "kb1" (Some "a.txt") (Demo.world_of Demo.two_docs ∅)
  = (Raise (TypeError "'ListDocsResponse' object is not subscriptable"),
     set_fs (set_uploads (alter (delete "a.txt") "kb1"))
       (Demo.world_of Demo.two_docs ∅)).
Proof.
  apply (delete_docs_existing_doc Demo.UPLOAD_ROOT Demo.VS_ROOT
           (Demo.engine true) (Demo.world_of Demo.two_docs ∅) "kb1" "a.txt"
           {[ "a.txt" := [x61]; "b.txt" := [x62; x62] ]}).
  - discriminate.
  - vm_compute. reflexivity.
  - vm_compute. eexists. reflexivity.
Defined.

Lemma basename_of_file_path_witness :
  os_path_basename
    (os_path_join (get_folder_path Demo.UPLOAD_ROOT "kb1") "a.txt") = "a.txt".
Proof.
  apply (basename_of_file_path Demo.UPLOAD_ROOT "kb1" "a.txt"). reflexivity.
Defined.

Lemma escape_newlines_single_line_witness :
  escape_newlines "Answer" = "Answer".
Proof.
  apply (proj2 (escape_newlines_single_line "Answer")). reflexivity.
Defined.

Lemma chat_depends_on_last_partial_witness :
  chat (Demo.engine true) "kb1" "q" [] Samples.indexed
  = chat Samples.engine_final_only "kb1" "q" [] Samples.indexed ∧
  fs (chat (Demo.engine true) "kb1" "q" [] Samples.indexed).2
  = fs Samples.indexed.
Proof.
  apply (chat_depends_on_last_partial (Demo.engine true)
           Samples.engine_final_only "kb1" "q" [] Samples.indexed).
  reflexivity.
Defined.

Lemma chat_needs_final_partial_with_sources_witness :
  chat Samples.engine_silent "kb1" "q" [] Samples.indexed
  = (Raise (UnboundLocalError "resp"),
     log_call (CallAnswer "q" FIXED_VS_PATH []) Samples.indexed) ∧
  chat Samples.engine_no_sources "kb1" "q" [] Samples.indexed
  = (Raise (KeyError "source_documents"),
     log_call (CallAnswer "q" FIXED_VS_PATH []) Samples.indexed).
Proof.
  split.
  - apply (proj1 (chat_needs_final_partial_with_sources Samples.engine_silent
                    "kb1" "q" [] Samples.indexed ltac:(decide_closed))).
    reflexivity.
  - apply (proj2 (chat_needs_final_partial_with_sources
                    Samples.engine_no_sources "kb1" "q" [] Samples.indexed
                    ltac:(decide_closed))
             (Demo.partial "q" [] "Answer" false).1
             (Demo.partial "q" [] "Answer" false).2).
    + reflexivity.
    + reflexivity.
Defined.

Lemma stream_chat_answers_all_witness :
  questions
    (stream_chat Demo.VS_ROOT (Demo.engine true) ["q1"; "q2"] "kb1"
       Samples.kb1_indexed) = ["q1"; "q2"] ∧
  start_turns
    (stream_chat Demo.VS_ROOT (Demo.engine true) ["q1"; "q2"] "kb1"
       Samples.kb1_indexed) = seq 1 (length ["q1"; "q2"]) ∧
  end_turns
    (stream_chat Demo.VS_ROOT (Demo.engine true) ["q1"; "q2"] "kb1"
       Samples.kb1_indexed) = seq 1 (length ["q1"; "q2"]) ∧
  last
    (stream_chat Demo.VS_ROOT (Demo.engine true) ["q1"; "q2"] "kb1"
       Samples.kb1_indexed) = Some (Raised WebSocketDisconnect).
Proof.
  apply (stream_chat_answers_all Demo.VS_ROOT (Demo.engine true)
           ["q1"; "q2"] "kb1" Samples.kb1_indexed).
  - intros q vs_path h. do 3 eexists. split; reflexivity.
  - decide_closed.
Defined.

Lemma stream_chat_first_answer_empty_witness :
  stream_chat Demo.VS_ROOT Samples.engine_silent ("q1" :: ["q2"]) "kb1"
    Samples.kb1_indexed
  = [Accept; Receive "q1"; Send (StartMarker "q1" 1);
     Engine (CallAnswer "q1" (os_path_join Demo.VS_ROOT "kb1") []);
     Raised (UnboundLocalError "resp")].
Proof.
  apply (stream_chat_first_answer_empty Demo.VS_ROOT Samples.engine_silent
           "q1" ["q2"] "kb1" Samples.kb1_indexed).
  - decide_closed.
  - reflexivity.
Defined.

Lemma stream_turn_stale_sources_witness :
  stream_turn Samples.engine_silent "/vector_store/kb1" "q2"
    Samples.second_session
  = ([Receive "q2"; Send (StartMarker "q2" (s_turn Samples.second_session));
      Engine (CallAnswer "q2" "/vector_store/kb1"
                (s_history Samples.second_session));
      Send (EndMarker "q2" (s_turn Samples.second_session)
              (render_sources
                 [ {| page_content := "excerpt";
                      metadata_source := "/content/kb1/a.txt";
                      metadata_score := 42 |} ]))],
     Some {| s_history := s_history Samples.second_session;
             s_turn := s_turn Samples.second_session + 1;
             s_resp := Some (Demo.partial "q1" [] "Answer" true).1 |}).
Proof.
  apply (stream_turn_stale_sources Samples.engine_silent "/vector_store/kb1"
           "q2" Samples.second_session).
  - reflexivity.
  - reflexivity.
  - reflexivity.
Defined.

Lemma stream_turn_sent_length_witness :
  String.length
    (str_join ""
       (answer_texts
          (stream_turn Samples.engine_rewriting "/vector_store/kb1" "q"
             Demo.first_session).1))
  = String.length (result (Demo.partial "q" [] "Cnswer" true).1).
Proof.
  apply (proj2 (stream_turn_sent_length Samples.engine_rewriting
                  "/vector_store/kb1" "q" Demo.first_session
                  (Demo.partial "q" [] "Cnswer" true).1
                  (Demo.partial "q" [] "Cnswer" true).2)).
  - reflexivity.
  - reflexivity.
Defined.

Lemma stream_chat_turns_so_far_witness :
  start_turns (take 5 Demo.two_turns)
  = seq 1 (length (start_turns (take 5 Demo.two_turns))) ∧
  end_turns (take 5 Demo.two_turns)
  = seq 1 (length (end_turns (take 5 Demo.two_turns))).
Proof.
  apply (stream_chat_turns_so_far Demo.VS_ROOT (Demo.engine true)
           ["q1"; "q2"] "kb1"
           {| uploads := Demo.one_doc;
              index_dirs := {[ "/vector_store/kb1" ]} |}
           (take 5 Demo.two_turns) (drop 5 Demo.two_turns)).
  vm_compute. reflexivity.
Defined.


Lemma feishu_event_async_no_index_witness :
  ∃ e,
    feishu_event_async (Demo.engine true) Demo.loads_demo Demo.str_demo
      Demo.net_up "id" "secret" Demo.message_event Samples.plain
    = (Raise e, Samples.plain).
Proof.
  apply (feishu_event_async_no_index (Demo.engine true) Demo.loads_demo
           Demo.str_demo Demo.net_up "id" "secret" Demo.message_event
           Samples.plain).
  decide_closed.
Defined.

Lemma feishu_event_async_handshake_witness :
  feishu_event_async (Demo.engine true) Demo.loads_demo Demo.str_demo
    Demo.net_up "id" "secret" Demo.handshake Samples.indexed
  = (Raise (TypeError "'NoneType' object is not subscriptable"),
     Samples.indexed).
Proof.
  apply (feishu_event_async_handshake (Demo.engine true) Demo.loads_demo
           Demo.str_demo Demo.net_up "id" "secret" Demo.handshake
           Samples.indexed).
  reflexivity.
Defined.
